(** * fetch_account_payables.py: a shallow embedding and its properties

    The script validates three arguments, issues one HTTP GET, looks for the
    record of the requested year in the parsed JSON body, and prints a
    report.  Python values are embedded as an inductive type, [print],
    [input] and [requests.get] as events of a trace, exceptions as an error
    layer of a small monad.

    Text is modelled as Rocq strings (byte strings): the model covers ASCII
    text, which is what tickers, years and the fixed messages are made of. *)

From Stdlib Require Import ZArith List String Ascii Bool Lia.
From Stdlib Require Import DecimalString DecimalPos SpecFloat.
Import ListNotations.

Local Open Scope string_scope.
Local Open Scope Z_scope.

(* ================================================================== *)
(** ** Text: the string builtins the script calls *)
(* ================================================================== *)

Module Text.

(** The newline character of ["\n"]. *)
Definition nl : string := String (ascii_of_nat 10) EmptyString.

(** [s * n] on strings. *)
Fixpoint repeat_str (s : string) (n : nat) : string :=
  match n with
  | O => ""
  | S n' => s ++ repeat_str s n'
  end.

(** [str.isspace] on one ASCII character: TAB, LF, VT, FF, CR, the four
    separators FS, GS, RS, US, and the space.  The whitespace outside
    ASCII that [str.strip] also removes (U+00A0 and the like) is not
    covered: a byte of 128 or more counts as no whitespace. *)
Definition is_space (c : ascii) : bool :=
  let n := nat_of_ascii c in
  ((9 <=? n) && (n <=? 13))%nat || ((28 <=? n) && (n <=? 32))%nat.

(** [s.lstrip()] *)
Fixpoint lstrip (s : string) : string :=
  match s with
  | EmptyString => EmptyString
  | String c rest => if is_space c then lstrip rest else s
  end.

Definition is_empty (s : string) : bool :=
  match s with EmptyString => true | String _ _ => false end.

(** [s.rstrip()] *)
Fixpoint rstrip (s : string) : string :=
  match s with
  | EmptyString => EmptyString
  | String c rest =>
      let r := rstrip rest in
      if is_space c && is_empty r then EmptyString else String c r
  end.

(** [s.strip()] *)
Definition strip (s : string) : string := rstrip (lstrip s).

Definition is_lower (c : ascii) : bool :=
  let n := nat_of_ascii c in ((97 <=? n) && (n <=? 122))%nat.

Definition is_upper (c : ascii) : bool :=
  let n := nat_of_ascii c in ((65 <=? n) && (n <=? 90))%nat.

Definition upper_char (c : ascii) : ascii :=
  if is_lower c then ascii_of_nat (nat_of_ascii c - 32) else c.

(** [s.upper()] on ASCII text: the letters a to z are mapped, and a byte
    of 128 or more is left as it is, where [str.upper] maps the letters
    outside ASCII as well. *)
Fixpoint upper (s : string) : string :=
  match s with
  | EmptyString => EmptyString
  | String c rest => String (upper_char c) (upper rest)
  end.

(** [str(z)] for an int. *)
Definition str_of_Z (z : Z) : string := NilZero.string_of_int (Z.to_int z).

(** The grouping of the [,] format option: a comma before every group of
    three digits, counted from the right. *)
Fixpoint group3 (digits : string) : string :=
  match digits with
  | EmptyString => EmptyString
  | String c rest =>
      let n := String.length rest in
      if (Nat.eqb (n mod 3) 0 && negb (Nat.eqb n 0))%nat
      then String c ("," ++ group3 rest)
      else String c (group3 rest)
  end.

(** [format(z, " ,")] for an int: a space where the sign of a non-negative
    number would be, a minus sign otherwise, then the grouped digits. *)
Definition format_int_space_comma (z : Z) : string :=
  (if z <? 0 then "-" else " ") ++ group3 (str_of_Z (Z.abs z)).

Definition digit_val (c : ascii) : option Z :=
  let n := nat_of_ascii c in
  if ((48 <=? n) && (n <=? 57))%nat then Some (Z.of_nat n - 48) else None.

(** The digits of an int literal for [int(s)]: decimal digits, single
    underscores allowed between two digits only. *)
Fixpoint digits_val (s : string) (acc : Z) (after_digit : bool) : option Z :=
  match s with
  | EmptyString => if after_digit then Some acc else None
  | String c rest =>
      if Ascii.eqb c "_"%char
      then (if after_digit then digits_val rest acc false else None)
      else match digit_val c with
           | Some d => digits_val rest (10 * acc + d) true
           | None => None
           end
  end.

(** [int(s)] in base 10 on ASCII text; [None] stands for the
    [ValueError] it raises.  The decimal digits outside ASCII that [int]
    also reads, and the limit the interpreter puts on the number of
    digits (4300), are not covered.  [main] calls it on a stripped entry,
    which has none of the separators FS to US at its ends: [int] itself
    does not skip these. *)
Definition py_int (s : string) : option Z :=
  match strip s with
  | String "+"%char rest => digits_val rest 0 false
  | String "-"%char rest => option_map Z.opp (digits_val rest 0 false)
  | t => digits_val t 0 false
  end.

End Text.

Import Text.

(* ================================================================== *)
(** ** Python values *)
(* ================================================================== *)

(** What [json.loads] produces, which is also what a caller can pass as an
    argument: [None], booleans, ints, floats, strings, lists and dicts.  A
    float is an IEEE-754 binary value; a dict keeps its items in insertion
    order, and a lookup takes the first item with the key. *)
#[warnings="-register-all"]
Inductive value : Type :=
| VNone
| VBool (b : bool)
| VInt (z : Z)
| VFloat (f : spec_float)
| VStr (s : string)
| VList (items : list value)
| VDict (items : list (string * value)).

Definition dict : Type := list (string * value).

Fixpoint assoc (k : string) (d : dict) : option value :=
  match d with
  | [] => None
  | (k', v) :: rest => if String.eqb k k' then Some v else assoc k rest
  end.

(** [d.get(k, default)] and [d.get(k)] *)
Definition dict_get_default (d : dict) (k : string) (default : value) : value :=
  match assoc k d with
  | Some v => v
  | None => default
  end.

Definition dict_get (d : dict) (k : string) : value :=
  dict_get_default d k VNone.

(** [bool(v)], the truth value tested by [not v] and [if v]. *)
Definition truthy (v : value) : bool :=
  match v with
  | VNone => false
  | VBool b => b
  | VInt z => negb (z =? 0)
  | VFloat (S754_zero _) => false
  | VFloat _ => true
  | VStr s => negb (is_empty s)
  | VList l => match l with [] => false | _ :: _ => true end
  | VDict d => match d with [] => false | _ :: _ => true end
  end.

(** [v] when [isinstance(v, str)] *)
Definition as_str (v : value) : option string :=
  match v with
  | VStr s => Some s
  | _ => None
  end.

(** The integer [v] stands for when [isinstance(v, int)]; [bool] is a
    subclass of [int], with [False] as 0 and [True] as 1. *)
Definition as_int (v : value) : option Z :=
  match v with
  | VInt z => Some z
  | VBool b => Some (if b then 1 else 0)
  | _ => None
  end.

(** [f == z] for a float and an int: Python compares the two numbers
    exactly.  A finite float is (-1)^s * m * 2^e. *)
Definition float_eq_int (f : spec_float) (z : Z) : bool :=
  match f with
  | S754_zero _ => z =? 0
  | S754_infinity _ => false
  | S754_nan => false
  | S754_finite s m e =>
      let signed := if s then Z.neg m else Z.pos m in
      if 0 <=? e then signed * 2 ^ e =? z
      else signed =? z * 2 ^ (- e)
  end.

(** [v == z] where [z] is an int. *)
Definition eq_int (v : value) (z : Z) : bool :=
  match v with
  | VInt n => n =? z
  | VBool b => (if b then 1 else 0) =? z
  | VFloat f => float_eq_int f z
  | _ => false
  end.

(** [v == s] where [s] is a str. *)
Definition eq_str (v : value) (s : string) : bool :=
  match v with
  | VStr t => String.eqb t s
  | _ => false
  end.

(** [type(v).__name__] *)
Definition type_name (v : value) : string :=
  match v with
  | VNone => "NoneType"
  | VBool _ => "bool"
  | VInt _ => "int"
  | VFloat _ => "float"
  | VStr _ => "str"
  | VList _ => "list"
  | VDict _ => "dict"
  end.

(* ================================================================== *)
(** ** Exceptions, events and the effect monad *)
(* ================================================================== *)

Inductive exn : Type :=
| ValueError (msg : string)
| TypeError (msg : string)
| AttributeError (msg : string)
| Timeout (msg : string)
| ConnectionError (msg : string)
| HTTPError (status : Z) (reason : string)
| JSONDecodeError (msg : string)
| OtherException (msg : string)
| SystemExit (code : Z).

Inductive result (A : Type) : Type :=
| Ok (a : A)
| Raise (e : exn).

Arguments Ok {A} a.
Arguments Raise {A} e.

Record request : Type := mkRequest {
  req_url : string;
  req_headers : list (string * string);
  req_timeout : Z
}.

(** A response as the script reads it: the status line and what
    [response.json()] gives, [None] when the body is not JSON. *)
Record response : Type := mkResponse {
  status_code : Z;
  reason : string;
  json : option value
}.

(** What [requests.get] can do: return a response, or raise one of the
    exceptions of [requests] (all of them subclasses of [Exception]). *)
Inductive net_result : Type :=
| Responded (r : response)
| TimedOut (msg : string)
| ConnectionFailed (msg : string)
| RequestFailed (msg : string).

Definition network : Type := request -> net_result.

Inductive event : Type :=
| Print (line : string)
| Prompt (text : string)
| Get (req : request).

Definition trace : Type := list event.

(** A computation writes a trace and either returns or raises. *)
Definition M (A : Type) : Type := (trace * result A)%type.

Definition ret {A} (a : A) : M A := ([], Ok a).

Definition raise {A} (e : exn) : M A := ([], Raise e).

Definition bind {A B} (m : M A) (k : A -> M B) : M B :=
  match m with
  | (t1, Ok a) => let (t2, r) := k a in ((t1 ++ t2)%list, r)
  | (t1, Raise e) => (t1, Raise e)
  end.

(** [try: m  except ...: handler] *)
Definition try_except {A} (m : M A) (handler : exn -> M A) : M A :=
  match m with
  | (t1, Ok a) => (t1, Ok a)
  | (t1, Raise e) => let (t2, r) := handler e in ((t1 ++ t2)%list, r)
  end.

Definition lift {A} (r : result A) : M A := ([], r).

Definition print (line : string) : M unit := ([Print line], Ok tt).

Definition prompt (text : string) : M unit := ([Prompt text], Ok tt).

Notation "x <- m ;; k" := (bind m (fun x => k))
  (at level 61, m at next level, right associativity).
Notation "m ;; k" := (bind m (fun _ => k))
  (at level 61, right associativity).

(** [requests.get(url, headers=headers, timeout=timeout)] *)
Definition requests_get (net : network) (u : string)
    (h : list (string * string)) (t : Z) : M response :=
  let req := mkRequest u h t in
  ([Get req],
   match net req with
   | Responded r => Ok r
   | TimedOut msg => Raise (Timeout msg)
   | ConnectionFailed msg => Raise (ConnectionError msg)
   | RequestFailed msg => Raise (OtherException msg)
   end).

(** [400 <= status < 600]: a client error or a server error status. *)
Definition is_http_error (r : response) : bool :=
  (400 <=? status_code r) && (status_code r <? 600).

(** [response.raise_for_status()]: an [HTTPError] for a client error
    (4xx) or a server error (5xx) status. *)
Definition raise_for_status (r : response) : M unit :=
  if is_http_error r
  then raise (HTTPError (status_code r) (reason r))
  else ret tt.

(** [response.json()] *)
Definition response_json (r : response) : M value :=
  match json r with
  | Some v => ret v
  | None => raise (JSONDecodeError "Expecting value")
  end.

(** What the process writes on standard output. *)
Fixpoint stdout (t : trace) : string :=
  match t with
  | [] => ""
  | Print line :: rest => line ++ nl ++ stdout rest
  | Prompt text :: rest => text ++ stdout rest
  | Get _ :: rest => stdout rest
  end.

Fixpoint requests_of (t : trace) : list request :=
  match t with
  | [] => []
  | Get req :: rest => req :: requests_of rest
  | _ :: rest => requests_of rest
  end.

(** The exit status of the interpreter: the code given to [sys.exit], 1
    for an uncaught exception, 0 when the script runs to its end. *)
Definition exit_status {A} (r : result A) : Z :=
  match r with
  | Ok _ => 0
  | Raise (SystemExit code) => code
  | Raise _ => 1
  end.

(* ================================================================== *)
(** ** The script: [get_account_payables] *)
(* ================================================================== *)

(** The dict that [get_account_payables] returns: always the same eight
    keys, each holding what [record.get] gave. *)
Module Result.
Record t : Type := mk {
  ticker : value;
  company_name : value;
  year : value;
  period : value;
  filing_date : value;
  accepted_date : value;
  accountPayables : value;
  currency : value
}.
End Result.

(** Lines 24-31.  Past the three checks the arguments are known to be a
    non-empty str, an int and a non-empty str, and the rest of the function
    works on these. *)
Definition check_arguments (ticker year api_key : value)
    : result (string * Z * string) :=
  match (if truthy ticker then as_str ticker else None) with
  | None => Raise (ValueError "Ticker must be a non-empty string")
  | Some ticker' =>
      match as_int year with
      | None =>
          Raise (ValueError "Year must be a valid integer between 1900 and 2100")
      | Some year' =>
          if (year' <? 1900) || (year' >? 2100)
          then Raise (ValueError "Year must be a valid integer between 1900 and 2100")
          else
            match (if truthy api_key then as_str api_key else None) with
            | None => Raise (ValueError "API key must be a non-empty string")
            | Some api_key' => Ok (ticker', year', api_key')
            end
      end
  end.

(** Lines 67-76. *)
Definition project (record : dict) : Result.t :=
  Result.mk
    (dict_get record "symbol")
    (dict_get record "company_name")
    (dict_get record "calendarYear")
    (dict_get record "period")
    (dict_get record "fillingDate")
    (dict_get record "acceptedDate")
    (dict_get record "accountPayables")
    (dict_get record "reportedCurrency").

(** The message of the [AttributeError] for [v.get] on a value that is not
    a dict. *)
Definition no_attribute_get (v : value) : string :=
  "'" ++ type_name v ++ "' object has no attribute 'get'".

(** [record.get("calendarYear") == year] *)
Definition year_matches (year : Z) (record : dict) : bool :=
  eq_int (dict_get record "calendarYear") year.

(** The loop of lines 64-77: [Ok (Some result)] is the [return result] of
    its body, [Ok None] the end of the loop. *)
Fixpoint find_record (financial_records : list value) (year : Z)
    : result (option Result.t) :=
  match financial_records with
  | [] => Ok None
  | VDict record :: rest =>
      if year_matches year record
      then Ok (Some (project record))
      else find_record rest year
  | other :: _ => Raise (AttributeError (no_attribute_get other))
  end.

Definition api_url : string :=
  "https://ac-api-server.vercel.app/server/company/".

Definition request_headers : list (string * string) :=
  [("x-api-key", "APIKEYINSERT"); ("Content-Type", "application/json")].

(** The request that is sent for a ticker. *)
Definition request_for (ticker : string) : request :=
  mkRequest (api_url ++ ticker) request_headers 10.

(** What every fetch starts with: the announcement and the request. *)
Definition fetch_prefix (ticker : string) : trace :=
  [Print (nl ++ "Fetching data for " ++ ticker ++ "...");
   Get (request_for ticker)].

(** What [main] writes before it calls [get_account_payables]. *)
Definition main_prefix : trace :=
  [Print (nl ++ repeat_str "=" 70);
   Print "COMPANY ACCOUNT PAYABLES FETCHER";
   Print (repeat_str "=" 70);
   Prompt "Enter company ticker (e.g., RELIANCE.NS): ";
   Prompt "Enter the year (e.g., 2025): "].

(** The report of [display_account_payables] down to the divider. *)
Definition report_head (company ticker year period filing currency : string)
    : trace :=
  [Print (nl ++ repeat_str "=" 70);
   Print "ACCOUNT PAYABLES INFORMATION";
   Print (repeat_str "=" 70);
   Print ("Company:             " ++ company);
   Print ("Ticker:              " ++ ticker);
   Print ("Year:                " ++ year);
   Print ("Period:              " ++ period);
   Print ("Filing Date:         " ++ filing);
   Print ("Currency:            " ++ currency);
   Print (repeat_str "-" 70)].

Definition header (name : string) (req : request) : option string :=
  option_map snd
    (List.find (fun kv => String.eqb (fst kv) name) (req_headers req)).

(* ================================================================== *)
(** ** Notions the properties are stated with, and sample data *)
(* ================================================================== *)

(** "Empty or not a string" *)
Definition invalid_text (v : value) : Prop :=
  forall s, v = VStr s -> s = "".

(** "Not an integer or outside [1900, 2100]" *)
Definition invalid_year (v : value) : Prop :=
  forall z, v = VInt z -> z < 1900 \/ 2100 < z.

(** The match read as integer equality: the field holds the int itself. *)
Definition year_is_int (year : Z) (record : dict) : bool :=
  match assoc "calendarYear" record with
  | Some (VInt z) => z =? year
  | _ => false
  end.

(** The selection under that reading: the projection of the first record
    whose field is the int [year]. *)
Definition select_first_int (records : list dict) (year : Z)
    : option Result.t :=
  option_map project (List.find (year_is_int year) records).

Fixpoint all_space (s : string) : bool :=
  match s with
  | EmptyString => true
  | String c rest => is_space c && all_space rest
  end.

(** Two characters that differ at most in letter case: equal, or a
    lower-case letter and the character 32 places below it. *)
Definition same_char_ci (a b : ascii) : Prop :=
  a = b
  \/ (is_lower a = true /\ nat_of_ascii a = (nat_of_ascii b + 32)%nat)
  \/ (is_lower b = true /\ nat_of_ascii b = (nat_of_ascii a + 32)%nat).

Inductive same_text_ci : string -> string -> Prop :=
| ci_nil : same_text_ci "" ""
| ci_cons a b s t :
    same_char_ci a b -> same_text_ci s t ->
    same_text_ci (String a s) (String b t).

(** Two entered tickers that differ only in letter case and in leading or
    trailing whitespace. *)
Inductive ticker_variant : string -> string -> Prop :=
| variant l1 c1 r1 l2 c2 r2 :
    all_space l1 = true -> all_space r1 = true ->
    all_space l2 = true -> all_space r2 = true ->
    same_text_ci c1 c2 ->
    ticker_variant (l1 ++ c1 ++ r1) (l2 ++ c2 ++ r2).

(** The failures of a fetch for [year], by what [requests.get] did. *)
Inductive fetch_failure (year : Z) : net_result -> Prop :=
| failure_timeout msg :
    fetch_failure year (TimedOut msg)
| failure_connection msg :
    fetch_failure year (ConnectionFailed msg)
| failure_other msg :
    fetch_failure year (RequestFailed msg)
| failure_http status reason body :
    400 <= status < 600 ->
    fetch_failure year (Responded (mkResponse status reason body))
| failure_not_json status reason :
    fetch_failure year (Responded (mkResponse status reason None))
| failure_not_object status reason data :
    (forall d, data <> VDict d) ->
    fetch_failure year (Responded (mkResponse status reason (Some data)))
| failure_status_field status reason d :
    eq_str (dict_get d "status") "success" = false ->
    fetch_failure year (Responded (mkResponse status reason (Some (VDict d))))
| failure_no_data status reason d :
    truthy (dict_get d "data") = false ->
    fetch_failure year (Responded (mkResponse status reason (Some (VDict d))))
| failure_data_not_list status reason d :
    (forall l, dict_get d "data" <> VList l) ->
    fetch_failure year (Responded (mkResponse status reason (Some (VDict d))))
| failure_no_match status reason d records :
    dict_get d "data" = VList (map VDict records) ->
    Forall (fun record => year_matches year record = false) records ->
    fetch_failure year (Responded (mkResponse status reason (Some (VDict d))))
| failure_bad_record status reason d records other rest :
    dict_get d "data" = VList (map VDict records ++ other :: rest) ->
    Forall (fun record => year_matches year record = false) records ->
    (forall r, other <> VDict r) ->
    fetch_failure year (Responded (mkResponse status reason (Some (VDict d)))).

(** The payload of the specification's example. *)
Definition record_2024 : dict :=
  [("calendarYear", VInt 2024); ("accountPayables", VInt 500)].

Definition record_2025 : dict :=
  [("calendarYear", VInt 2025); ("accountPayables", VInt 700);
   ("symbol", VStr "X"); ("reportedCurrency", VStr "USD")].

Definition example_payload : value :=
  VDict [("status", VStr "success");
         ("data", VList [VDict record_2024; VDict record_2025])].

Definition success_payload (records : list value) : value :=
  VDict [("status", VStr "success"); ("data", VList records)].

(** The binary64 float 2025.0: mantissa 2025 * 2^42, exponent -42. *)
Definition float_2025 : spec_float :=
  S754_finite false 8906044184985600 (-42).

Definition record_float_year : dict :=
  [("calendarYear", VFloat float_2025); ("accountPayables", VInt 1)].

Definition record_int_year : dict :=
  [("calendarYear", VInt 2025); ("accountPayables", VInt 2)].

(** A record of 2025 without an [accountPayables] field. *)
Definition record_without_payables : dict :=
  [("calendarYear", VInt 2025); ("symbol", VStr "X");
   ("reportedCurrency", VStr "USD")].

(** A record of 2025 whose [accountPayables] is a string. *)
Definition record_text_payables : dict :=
  [("calendarYear", VInt 2025); ("accountPayables", VStr "700")].

(** A network that answers every request the same way. *)
Definition always (r : net_result) : network := fun _ => r.

Definition ok_response (data : value) : response :=
  mkResponse 200 "OK" (Some data).

(** A response whose 2025 record has no amount, and one whose amount is
    a string. *)
Definition null_amount_network : network :=
  always (Responded (ok_response
                       (success_payload [VDict record_without_payables]))).

Definition text_amount_network : network :=
  always (Responded (ok_response
                       (success_payload [VDict record_text_payables]))).

(** A response with status 300 and the example payload as its body. *)
Definition status_300_network : network :=
  always (Responded (mkResponse 300 "Multiple Choices" (Some example_payload))).

(** A network that answers the request for ticker X only. *)
Definition only_X_network : network :=
  fun req =>
    if String.eqb (req_url req) (api_url ++ "X")
    then Responded (ok_response example_payload)
    else ConnectionFailed "no route".

(** The values [format(v, " ,")] accepts: an int, a bool or a float. *)
Definition is_number (v : value) : bool :=
  match v with
  | VInt _ | VBool _ | VFloat _ => true
  | _ => false
  end.

(** A string without its commas. *)
Fixpoint remove_commas (s : string) : string :=
  match s with
  | EmptyString => EmptyString
  | String c rest =>
      if Ascii.eqb c ","%char then remove_commas rest
      else String c (remove_commas rest)
  end.

(** Whether the checks that [main] and [get_account_payables] make before
    the request all pass, for an entered ticker and year. *)
Definition preflight (API_KEY tl yl : string) : option (string * Z) :=
  if String.eqb API_KEY "INSERT YOUR API KEY" then None
  else if is_empty (upper (strip tl)) then None
  else match py_int (strip yl) with
       | None => None
       | Some year =>
           if (year <? 1900) || (year >? 2100) || is_empty API_KEY then None
           else Some (upper (strip tl), year)
       end.


(** Whether a string is made of decimal digits only. *)
Fixpoint all_digits (s : string) : bool :=
  match s with
  | EmptyString => true
  | String c rest =>
      match digit_val c with
      | Some _ => all_digits rest
      | None => false
      end
  end.

(** What [main] has written when it refuses a blank ticker. *)
Definition blank_ticker_trace : trace :=
  [Print (nl ++ repeat_str "=" 70);
   Print "COMPANY ACCOUNT PAYABLES FETCHER";
   Print (repeat_str "=" 70);
   Prompt "Enter company ticker (e.g., RELIANCE.NS): ";
   Print "Error: Ticker cannot be empty"].


(** Whether a text is ASCII: every byte is below 128.  The string
    builtins are modelled on ASCII text; the properties of [main] that
    depend on how an entry is stripped, upper-cased or parsed are stated
    for ASCII entries. *)
Fixpoint ascii_only (s : string) : bool :=
  match s with
  | EmptyString => true
  | String c rest => (nat_of_ascii c <? 128)%nat && ascii_only rest
  end.

(** No whitespace at the start, and none at the end. *)
Definition starts_clean (s : string) : bool :=
  match s with
  | EmptyString => true
  | String c _ => negb (is_space c)
  end.

Fixpoint ends_clean (s : string) : bool :=
  match s with
  | EmptyString => true
  | String c rest =>
      match rest with
      | EmptyString => negb (is_space c)
      | String _ _ => ends_clean rest
      end
  end.

Definition trimmed (s : string) : bool := starts_clean s && ends_clean s.

(** No lower-case letter. *)
Fixpoint no_lower (s : string) : bool :=
  match s with
  | EmptyString => true
  | String c rest => negb (is_lower c) && no_lower rest
  end.

(** Two responses with the same body and the same status outcome: both
    statuses outside 400-599, or the same status code and reason. *)
Definition same_outcome (r1 r2 : response) : Prop :=
  json r1 = json r2
  /\ ((is_http_error r1 = false /\ is_http_error r2 = false)
      \/ (status_code r1 = status_code r2 /\ reason r1 = reason r2)).

(** KELVIN SIGN, U+212A, in UTF-8.  It is an upper-case letter whose
    lower-case form is the letter k; [str.upper] leaves it as it is. *)
Definition kelvin_sign : string :=
  String (ascii_of_nat 226)
    (String (ascii_of_nat 132) (String (ascii_of_nat 170) EmptyString)).

(** Responses with the example payload as body and other statuses. *)
Definition status_201_network : network :=
  always (Responded (mkResponse 201 "Created" (Some example_payload))).

Definition status_404_network : network :=
  always (Responded (mkResponse 404 "Not Found" (Some example_payload))).


(** The renderings the examples run with.  No example prints a float, a
    list or a dict, so this text never shows in their output. *)
Definition plain_repr (v : value) : string := "<" ++ type_name v ++ ">".

Definition plain_float_format (f : spec_float) : string := " <float>".

Section Script.

(** Two builtins stay abstract: [repr] on the values [str] hands over to
    it (floats, lists and dicts), and [format(f, " ,")] on a float. *)
Variable py_repr : value -> string.
Variable float_format : spec_float -> string.

(** [str(v)], which is what an f-string field without format puts in. *)
Definition py_str (v : value) : string :=
  match v with
  | VNone => "None"
  | VBool true => "True"
  | VBool false => "False"
  | VInt z => str_of_Z z
  | VStr s => s
  | VFloat _ | VList _ | VDict _ => py_repr v
  end.

(** [format(v, " ,")], the f-string field [{v: ,}]. *)
Definition format_space_comma (v : value) : result string :=
  match v with
  | VInt z => Ok (format_int_space_comma z)
  | VBool b => Ok (format_int_space_comma (if b then 1 else 0))
  | VFloat f => Ok (float_format f)
  | VStr _ => Raise (ValueError "Cannot specify ',' with 's'.")
  | VNone | VList _ | VDict _ =>
      Raise (TypeError ("unsupported format string passed to "
                        ++ type_name v ++ ".__format__"))
  end.

(** Lines 51-81, on the parsed body. *)
Definition select_record (data : value) (year : Z) : M (option Result.t) :=
  match data with
  | VDict d =>
      if negb (eq_str (dict_get d "status") "success")
         || negb (truthy (dict_get d "data"))
      then
        print ("API Error: "
               ++ py_str (dict_get_default d "status" (VStr "Unknown error"))) ;;
        ret None
      else
        match dict_get_default d "data" (VList []) with
        | VList financial_records =>
            found <- lift (find_record financial_records year) ;;
            match found with
            | Some result => ret (Some result)
            | None =>
                print ("No data found for year " ++ str_of_Z year) ;;
                ret None
            end
        | _ =>
            print "Error: Expected data to be a list of records" ;;
            ret None
        end
  | _ => raise (AttributeError (no_attribute_get data))
  end.

(** The [except] clauses of lines 83-97, in their order.  [SystemExit] is
    not an [Exception] and passes through. *)
Definition on_error (ticker : string) (e : exn) : M (option Result.t) :=
  match e with
  | Timeout _ =>
      print ("Request timed out while fetching data for " ++ ticker) ;;
      ret None
  | ConnectionError _ =>
      print ("Connection error while fetching data for " ++ ticker) ;;
      ret None
  | HTTPError status reason =>
      print ("HTTP Error: " ++ str_of_Z status ++ " - " ++ reason) ;;
      ret None
  | JSONDecodeError _ =>
      print "Error: Could not parse API response as JSON" ;;
      ret None
  | SystemExit _ => raise e
  | ValueError msg | TypeError msg | AttributeError msg
  | OtherException msg =>
      print ("Unexpected error: " ++ msg) ;;
      ret None
  end.

(** Lines 33-97. *)
Definition fetch (ticker : string) (year : Z) (api_key : string)
    (net : network) : M (option Result.t) :=
  let url := api_url ++ ticker in
  let headers := request_headers in
  try_except
    (print (nl ++ "Fetching data for " ++ ticker ++ "...") ;;
     response <- requests_get net url headers 10 ;;
     raise_for_status response ;;
     data <- response_json response ;;
     select_record data year)
    (on_error ticker).

Definition get_account_payables (ticker year api_key : value)
    (net : network) : M (option Result.t) :=
  match check_arguments ticker year api_key with
  | Raise e => raise e
  | Ok (ticker', year', api_key') => fetch ticker' year' api_key' net
  end.

(* ================================================================== *)
(** ** The script: [display_account_payables] and [main] *)
(* ================================================================== *)

Definition display_account_payables (result : option Result.t) : M unit :=
  match result with
  | None => print "No data to display"
  | Some r =>
      print (nl ++ repeat_str "=" 70) ;;
      print "ACCOUNT PAYABLES INFORMATION" ;;
      print (repeat_str "=" 70) ;;
      print ("Company:             " ++ py_str (Result.company_name r)) ;;
      print ("Ticker:              " ++ py_str (Result.ticker r)) ;;
      print ("Year:                " ++ py_str (Result.year r)) ;;
      print ("Period:              " ++ py_str (Result.period r)) ;;
      print ("Filing Date:         " ++ py_str (Result.filing_date r)) ;;
      print ("Currency:            " ++ py_str (Result.currency r)) ;;
      print (repeat_str "-" 70) ;;
      amount <- lift (format_space_comma (Result.accountPayables r)) ;;
      print ("Account Payables:     " ++ amount ++ " "
             ++ py_str (Result.currency r)) ;;
      print (repeat_str "=" 70 ++ nl)
  end.

(** [sys.exit(code)] *)
Definition sys_exit {A} (code : Z) : M A := raise (SystemExit code).

(** The [except ValueError] clause of lines 169-171; [JSONDecodeError] is
    a subclass of [ValueError]. *)
Definition on_value_error (e : exn) : M unit :=
  match e with
  | ValueError msg | JSONDecodeError msg =>
      print ("Error: " ++ msg) ;;
      sys_exit 1
  | _ => raise e
  end.

(** [main], with the constant [API_KEY] of line 130 and the two lines the
    operator types as parameters. *)
Definition main (API_KEY : string) (ticker_line year_line : string)
    (net : network) : M unit :=
  if String.eqb API_KEY "INSERT YOUR API KEY" then
    print "Error: Please set your API key in the script first." ;;
    print "Replace 'INSERT YOUR API KEY' with your actual API key." ;;
    sys_exit 1
  else
    print (nl ++ repeat_str "=" 70) ;;
    print "COMPANY ACCOUNT PAYABLES FETCHER" ;;
    print (repeat_str "=" 70) ;;
    prompt "Enter company ticker (e.g., RELIANCE.NS): " ;;
    let ticker := upper (strip ticker_line) in
    if is_empty ticker then
      print "Error: Ticker cannot be empty" ;;
      sys_exit 1
    else
      prompt "Enter the year (e.g., 2025): " ;;
      match py_int (strip year_line) with
      | None =>
          print "Error: Year must be a valid integer" ;;
          sys_exit 1
      | Some year =>
          try_except
            (result <- get_account_payables
                         (VStr ticker) (VInt year) (VStr API_KEY) net ;;
             match result with
             | Some r =>
                 display_account_payables result ;;
                 amount <- lift (format_space_comma (Result.accountPayables r)) ;;
                 print ("✓ Successfully retrieved Account Payables:  " ++ amount)
             | None =>
                 print ("✗ Failed to retrieve data for " ++ ticker
                        ++ " in year " ++ str_of_Z year)
             end)
            on_value_error
      end.

(** Whether the f-string field [{result['accountPayables']: ,}] can be
    formatted. *)
Definition amount_formats (r : Result.t) : bool :=
  match format_space_comma (Result.accountPayables r) with
  | Ok _ => true
  | Raise _ => false
  end.

(** The lines of the report down to the divider, for a summary. *)
Definition report_of (r : Result.t) : trace :=
  report_head (py_str (Result.company_name r)) (py_str (Result.ticker r))
    (py_str (Result.year r)) (py_str (Result.period r))
    (py_str (Result.filing_date r)) (py_str (Result.currency r)).

(** The line [main] ends a run without result with. *)
Definition failure_line (ticker : string) (year : Z) : event :=
  Print ("✗ Failed to retrieve data for " ++ ticker ++ " in year "
         ++ str_of_Z year).

(* ================================================================== *)
(** ** Properties of the argument checks *)
(* ================================================================== *)

Lemma truthy_as_str (v : value) (s : string) :
  (if truthy v then as_str v else None) = Some s <-> v = VStr s /\ s <> "".
Proof.
  destruct v as [ | b | z | f | t | l | d]; simpl;
    try (destruct f); try (destruct b); try (destruct (negb (z =? 0)));
    try (destruct l); try (destruct d);
    try (split; [discriminate | intros [H _]; discriminate]).
  destruct t as [ | c t]; simpl.
  - split; [discriminate | ].
    intros [H Hne]. inversion H; subst. now elim Hne.
  - split.
    + intros H. inversion H; subst. split; [reflexivity | discriminate].
    + intros [H _]. now inversion H.
Qed.

Lemma truthy_as_str_none (v : value) :
  (if truthy v then as_str v else None) = None <-> invalid_text v.
Proof.
  unfold invalid_text. split.
  - intros H s ->. destruct s as [ | c s]; [reflexivity | discriminate].
  - intros H.
    destruct (if truthy v then as_str v else None) as [s | ] eqn:E;
      [ | reflexivity].
    apply truthy_as_str in E. destruct E as [-> Hne].
    now elim Hne; apply H.
Qed.

Lemma check_arguments_ok (t y k : value) (s : string) (z : Z) (a : string) :
  check_arguments t y k = Ok (s, z, a) <->
  (t = VStr s /\ s <> "") /\ (y = VInt z /\ 1900 <= z <= 2100)
  /\ (k = VStr a /\ a <> "").
Proof.
  unfold check_arguments. split.
  - destruct (if truthy t then as_str t else None) as [s' | ] eqn:Et;
      [ | discriminate].
    destruct (as_int y) as [z' | ] eqn:Ey; [ | discriminate].
    destruct ((z' <? 1900) || (z' >? 2100)) eqn:Er; [discriminate | ].
    destruct (if truthy k then as_str k else None) as [a' | ] eqn:Ek;
      [ | discriminate].
    intros H. inversion H; subst.
    apply truthy_as_str in Et. apply truthy_as_str in Ek.
    apply orb_false_iff in Er. destruct Er as [Hlo Hhi].
    repeat split; try tauto; try lia.
    destruct y as [ | b | n | f | u | l | d]; try discriminate.
    + destruct b; inversion Ey; subst; discriminate.
    + now inversion Ey.
  - intros [Ht [[-> Hz] Hk]].
    apply truthy_as_str in Ht. apply truthy_as_str in Hk.
    rewrite Ht, Hk. simpl.
    replace ((z <? 1900) || (z >? 2100)) with false; [reflexivity | ].
    symmetry. apply orb_false_iff. split; lia.
Qed.

Lemma check_arguments_raises (t y k : value) (e : exn) :
  check_arguments t y k = Raise e -> exists msg, e = ValueError msg.
Proof.
  unfold check_arguments.
  destruct (if truthy t then as_str t else None);
    [ | intros H; inversion H; eauto].
  destruct (as_int y) as [z | ]; [ | intros H; inversion H; eauto].
  destruct ((z <? 1900) || (z >? 2100)); [intros H; inversion H; eauto | ].
  destruct (if truthy k then as_str k else None);
    [discriminate | intros H; inversion H; eauto].
Qed.

Lemma valid_text_dec (v : value) :
  invalid_text v \/ exists s, v = VStr s /\ s <> "".
Proof.
  destruct v as [ | b | z | f | t | l | d];
    try (left; intros s H; discriminate).
  destruct t as [ | c t].
  - left. intros s H. now inversion H.
  - right. eexists. split; [reflexivity | discriminate].
Qed.

Lemma valid_year_dec (v : value) :
  invalid_year v \/ exists z, v = VInt z /\ 1900 <= z <= 2100.
Proof.
  destruct v as [ | b | z | f | t | l | d];
    try (left; intros n H; discriminate).
  destruct (Z_lt_dec z 1900) as [Hlo | Hlo];
    [left; intros n H; inversion H; lia | ].
  destruct (Z_lt_dec 2100 z) as [Hhi | Hhi];
    [left; intros n H; inversion H; lia | ].
  right. exists z. split; [reflexivity | lia].
Qed.

(** [C5] Validation raises a [ValueError] exactly when the ticker is
    empty or not a string, or the year is not an integer or lies outside
    [1900, 2100], or the API key is empty or not a string; the call then
    ends with that error and an empty trace, so before any request or
    output.  When validation passes, the three values handed on are the
    arguments themselves.  The years 1900 and 2100 pass, 1899 and 2101 do
    not. *)
Theorem validation_rejects_exactly (t y k : value) (net : network) :
  ((exists msg, check_arguments t y k = Raise (ValueError msg))
     <-> (invalid_text t \/ invalid_year y \/ invalid_text k))
  /\ (forall e, check_arguments t y k = Raise e ->
        get_account_payables t y k net = ([], Raise e)
        /\ exists msg, e = ValueError msg)
  /\ (forall s z a, check_arguments t y k = Ok (s, z, a) ->
        t = VStr s /\ y = VInt z /\ k = VStr a)
  /\ check_arguments (VStr "X") (VInt 1900) (VStr "key") = Ok ("X", 1900, "key")
  /\ check_arguments (VStr "X") (VInt 2100) (VStr "key") = Ok ("X", 2100, "key")
  /\ (exists msg,
        check_arguments (VStr "X") (VInt 1899) (VStr "key")
        = Raise (ValueError msg))
  /\ (exists msg,
        check_arguments (VStr "X") (VInt 2101) (VStr "key")
        = Raise (ValueError msg)).
Proof.
  split; [ | split; [ | split]].
  4: repeat split; try reflexivity; eexists; reflexivity.
  - split.
    + intros [msg Hr].
      destruct (valid_text_dec t) as [Ht | [s [-> Hs]]]; [now left | ].
      destruct (valid_year_dec y) as [Hy | [z [-> Hz]]]; [now right; left | ].
      destruct (valid_text_dec k) as [Hk | [a [-> Ha]]]; [now right; right | ].
      assert (Hok : check_arguments (VStr s) (VInt z) (VStr a) = Ok (s, z, a))
        by (apply check_arguments_ok; tauto).
      rewrite Hok in Hr. discriminate.
    + intros Hbad.
      destruct (check_arguments t y k) as [[[s z] a] | e] eqn:E.
      * apply check_arguments_ok in E.
        destruct E as [[-> Hs] [[-> Hz] [-> Ha]]].
        destruct Hbad as [H | [H | H]].
        -- now elim Hs; apply H.
        -- specialize (H z eq_refl). lia.
        -- now elim Ha; apply H.
      * destruct (check_arguments_raises _ _ _ _ E) as [msg ->]. eauto.
  - intros e He. split.
    + unfold get_account_payables. now rewrite He.
    + eapply check_arguments_raises; eauto.
  - intros s z a H. apply check_arguments_ok in H. tauto.
Qed.

(* ================================================================== *)
(** ** Properties of the search for the year *)
(* ================================================================== *)

Lemma find_record_dicts (records : list dict) (year : Z) :
  find_record (map VDict records) year
  = Ok (option_map project (List.find (year_matches year) records)).
Proof.
  induction records as [ | record rest IH]; simpl; [reflexivity | ].
  destruct (year_matches year record); [reflexivity | exact IH].
Qed.

Lemma find_first (A : Type) (p : A -> bool) (l : list A) (x : A) :
  List.find p l = Some x <->
  exists before after,
    l = (before ++ x :: after)%list
    /\ Forall (fun a => p a = false) before /\ p x = true.
Proof.
  induction l as [ | a l IH]; simpl.
  - split; [discriminate | ].
    intros (before & after & H & _). now destruct before.
  - destruct (p a) eqn:Ea.
    + split.
      * intros H. inversion H; subst. exists [], l. auto.
      * intros (before & after & H & Hb & Hx).
        destruct before as [ | b before]; simpl in H; inversion H; subst.
        -- reflexivity.
        -- inversion Hb; subst. congruence.
    + rewrite IH. split.
      * intros (before & after & -> & Hb & Hx).
        exists (a :: before), after. auto.
      * intros (before & after & H & Hb & Hx).
        destruct before as [ | b before]; simpl in H; inversion H; subst.
        -- congruence.
        -- inversion Hb; subst. eauto.
Qed.

Lemma find_none (A : Type) (p : A -> bool) (l : list A) :
  List.find p l = None <-> Forall (fun a => p a = false) l.
Proof.
  induction l as [ | a l IH]; simpl.
  - split; auto.
  - destruct (p a) eqn:Ea.
    + split; [discriminate | ]. intros H. inversion H; congruence.
    + rewrite IH. split; [auto | ]. intros H. now inversion H.
Qed.

(** What [==] with an int accepts: an int, a bool or a float of the same
    numeric value, and nothing else. *)
Lemma eq_int_cases (v : value) (z : Z) :
  eq_int v z = true <->
  v = VInt z
  \/ (exists b, v = VBool b /\ z = if b then 1 else 0)
  \/ (exists f, v = VFloat f /\ float_eq_int f z = true).
Proof.
  destruct v as [ | b | n | f | t | l | d]; simpl;
    try (split; [discriminate | intros [H | [[? [H _]] | [? [H _]]]];
                                discriminate]).
  - rewrite Z.eqb_eq. split.
    + intros <-. right; left. eauto.
    + intros [H | [[b' [H ->]] | [? [H _]]]]; try discriminate.
      now inversion H.
  - rewrite Z.eqb_eq. split.
    + intros ->. now left.
    + intros [H | [[? [H _]] | [? [H _]]]]; try discriminate.
      now inversion H.
  - split.
    + intros H. right; right. eauto.
    + intros [H | [[? [H _]] | [f' [H Hf]]]]; try discriminate.
      now inversion H; subst.
Qed.


Lemma float_2025_is_binary64 :
  bounded 53 1024 8906044184985600 (-42) = true
  /\ float_eq_int float_2025 2025 = true.
Proof. split; reflexivity. Qed.

(** [C2, amended] On a list of mappings the search returns the projection
    of the first record whose [calendarYear] compares equal to the target
    year under [==]: the int itself, or a bool or a float of the same
    numeric value (a string or an absent field never does).  Records
    before it do not compare equal, so the earliest match wins; without a
    match the search ends with no result. *)
Theorem find_record_first_match (records : list dict) (year : Z) :
  (forall result,
     find_record (map VDict records) year = Ok (Some result) <->
     exists before record after,
       records = (before ++ record :: after)%list
       /\ Forall (fun r => year_matches year r = false) before
       /\ year_matches year record = true
       /\ result = project record)
  /\ (find_record (map VDict records) year = Ok None <->
      Forall (fun r => year_matches year r = false) records)
  /\ (forall record,
        year_matches year record = true <->
        dict_get record "calendarYear" = VInt year
        \/ (exists b, dict_get record "calendarYear" = VBool b
                      /\ year = if b then 1 else 0)
        \/ (exists f, dict_get record "calendarYear" = VFloat f
                      /\ float_eq_int f year = true)).
Proof.
  rewrite find_record_dicts. split; [ | split].
  - intros result.
    destruct (List.find (year_matches year) records) as [record | ] eqn:E.
    + apply find_first in E. destruct E as (before & after & -> & Hb & Hr).
      simpl. split.
      * intros H. inversion H; subst. exists before, record, after. auto.
      * intros (before' & record' & after' & Heq & Hb' & Hr' & ->).
        assert (Hf : List.find (year_matches year)
                       (before ++ record :: after)%list = Some record)
          by (apply find_first; eauto).
        rewrite Heq in Hf.
        assert (Hf' : List.find (year_matches year)
                        (before' ++ record' :: after')%list = Some record')
          by (apply find_first; eauto).
        congruence.
    + simpl. split; [discriminate | ].
      intros (before & record & after & -> & Hb & Hr & _).
      assert (Hf : List.find (year_matches year)
                     (before ++ record :: after)%list = Some record)
        by (apply find_first; eauto).
      congruence.
  - rewrite <- find_none.
    destruct (List.find (year_matches year) records); simpl;
      split; congruence.
  - intros record. unfold year_matches. apply eq_int_cases.
Qed.

Lemma find_record_some (l : list value) (year : Z) (result : Result.t) :
  find_record l year = Ok (Some result) ->
  eq_int (Result.year result) year = true.
Proof.
  induction l as [ | v l IH]; simpl; [discriminate | ].
  destruct v as [ | b | z | f | t | items | record]; try discriminate.
  destruct (year_matches year record) eqn:E; [ | exact IH].
  intros H. inversion H; subst. exact E.
Qed.

Lemma find_record_raises (l : list value) (year : Z) (e : exn) :
  find_record l year = Raise e -> exists msg, e = AttributeError msg.
Proof.
  induction l as [ | v l IH]; simpl; [discriminate | ].
  destruct v as [ | b | z | f | t | items | record];
    try solve [intros H; inversion H; eauto].
  destruct (year_matches year record); [discriminate | exact IH].
Qed.

Lemma find_record_bad_record (records : list dict) (other : value)
    (rest : list value) (year : Z) :
  Forall (fun r => year_matches year r = false) records ->
  (forall r, other <> VDict r) ->
  find_record (map VDict records ++ other :: rest) year
  = Raise (AttributeError (no_attribute_get other)).
Proof.
  intros Hno Hother. induction Hno as [ | record records Hr _ IH]; simpl.
  - destruct other; try reflexivity. now elim (Hother items).
  - rewrite Hr. exact IH.
Qed.

(** The three ways [select_record] ends. *)
Lemma select_record_outcome (data : value) (year : Z) :
  (exists result d l,
      select_record data year = ([], Ok (Some result))
      /\ data = VDict d
      /\ eq_str (dict_get d "status") "success" = true
      /\ truthy (dict_get d "data") = true
      /\ dict_get d "data" = VList l
      /\ find_record l year = Ok (Some result))
  \/ (exists msg, select_record data year = ([Print msg], Ok None))
  \/ (exists msg, select_record data year = ([], Raise (AttributeError msg))).
Proof.
  destruct data as [ | b | z | f | t | items | d];
    try (right; right; eexists; reflexivity).
  unfold select_record.
  destruct (eq_str (dict_get d "status") "success") eqn:Es; simpl;
    [ | right; left; eexists; reflexivity].
  destruct (truthy (dict_get d "data")) eqn:Et; simpl;
    [ | right; left; eexists; reflexivity].
  unfold dict_get in Et |- *. unfold dict_get_default in Et |- *.
  destruct (assoc "data" d) as [v | ] eqn:Ed; [ | discriminate].
  destruct v as [ | b | z | f | t | l | d'];
    try (right; left; eexists; reflexivity).
  destruct (find_record l year) as [[result | ] | e] eqn:Ef; simpl.
  - left. exists result, d, l. unfold dict_get, dict_get_default.
    rewrite Ed. auto 10.
  - right; left. eexists; reflexivity.
  - destruct (find_record_raises _ _ _ Ef) as [msg ->].
    right; right. eexists; reflexivity.
Qed.

Ltac run_script :=
  cbn -[append nl request_for fetch_prefix is_http_error select_record
        find_record on_error].

(** The two ways [fetch] ends: with the selected record and nothing
    printed after the request, or with no result and one more line. *)
Lemma fetch_outcome (ticker : string) (year : Z) (api_key : string)
    (net : network) :
  (exists result r data,
      fetch ticker year api_key net = (fetch_prefix ticker, Ok (Some result))
      /\ net (request_for ticker) = Responded r
      /\ is_http_error r = false
      /\ json r = Some data
      /\ select_record data year = ([], Ok (Some result))
      /\ eq_int (Result.year result) year = true)
  \/ (exists msg,
        fetch ticker year api_key net
        = ((fetch_prefix ticker ++ [Print msg])%list, Ok None)).
Proof.
  unfold fetch, requests_get. fold (request_for ticker).
  destruct (net (request_for ticker)) as [r | msg | msg | msg] eqn:En;
    try (right; eexists; reflexivity).
  run_script. unfold raise_for_status.
  destruct (is_http_error r) eqn:Eh; [right; eexists; reflexivity | ].
  run_script. unfold response_json.
  destruct (json r) as [data | ] eqn:Ej; [ | right; eexists; reflexivity].
  run_script.
  destruct (select_record_outcome data year)
    as [(result & d & l & Hs & _ & _ & _ & _ & Hf) | [[msg Hs] | [msg Hs]]];
    rewrite Hs.
  - left. exists result, r, data.
    apply find_record_some in Hf. auto 10.
  - right. exists msg. reflexivity.
  - right. eexists. reflexivity.
Qed.

(** [C3] On the example payload the selector returns, for 2025, the
    summary with accountPayables 700, currency "USD" and ticker "X", its
    year taken from the record and the four fields the record lacks set to
    null; for 2099 it returns no data.  A field absent from a record
    projects to null, and a matching record is always projected. *)
Theorem example_payload_selection :
  select_record example_payload 2025
  = ([], Ok (Some (Result.mk (VStr "X") VNone (VInt 2025) VNone VNone VNone
                             (VInt 700) (VStr "USD"))))
  /\ select_record example_payload 2099
     = ([Print "No data found for year 2099"], Ok None)
  /\ (forall record key, assoc key record = None -> dict_get record key = VNone)
  /\ (forall record year,
        year_matches year record = true ->
        select_record (success_payload [VDict record]) year
        = ([], Ok (Some (project record)))).
Proof.
  repeat split.
  - intros record key H. unfold dict_get, dict_get_default. now rewrite H.
  - intros record year H. unfold select_record. simpl. now rewrite H.
Qed.

(** [C9] A summary returned by [get_account_payables] has a year field
    equal to the requested year: the requested year is an int, and the
    field, copied from the matched record, compares equal to it. *)
Theorem returned_year_is_requested (t y k : value) (net : network)
    (tr : trace) (result : Result.t) :
  get_account_payables t y k net = (tr, Ok (Some result)) ->
  exists z, y = VInt z /\ eq_int (Result.year result) z = true.
Proof.
  unfold get_account_payables.
  destruct (check_arguments t y k) as [[[ticker year] api_key] | e] eqn:Ec;
    [ | discriminate].
  apply check_arguments_ok in Ec. destruct Ec as [_ [[-> _] _]].
  destruct (fetch_outcome ticker year api_key net)
    as [(result' & r & data & -> & _ & _ & _ & _ & Hy) | [msg ->]];
    intros H; inversion H; subst.
  exists year. auto.
Qed.

Lemma fetch_requests (ticker : string) (year : Z) (api_key : string)
    (net : network) :
  requests_of (fst (fetch ticker year api_key net)) = [request_for ticker].
Proof.
  destruct (fetch_outcome ticker year api_key net)
    as [(result & r & data & -> & _) | [msg ->]]; reflexivity.
Qed.

Lemma fetch_ext (ticker : string) (year : Z) (api_key : string)
    (net1 net2 : network) :
  net1 (request_for ticker) = net2 (request_for ticker) ->
  fetch ticker year api_key net1 = fetch ticker year api_key net2.
Proof.
  intros H. unfold fetch, requests_get. fold (request_for ticker).
  now rewrite H.
Qed.

(** A selected record rules every failure out. *)
Lemma selected_not_failure (year : Z) (r : response) (data : value)
    (result : Result.t) :
  is_http_error r = false ->
  json r = Some data ->
  select_record data year = ([], Ok (Some result)) ->
  ~ fetch_failure year (Responded r).
Proof.
  intros Hh Hj Hs Hf.
  destruct (select_record_outcome data year)
    as [(result' & d & l & _ & -> & Est & Etr & Ed & Efind)
       | [[msg Hs'] | [msg Hs']]];
    [ | congruence | congruence].
  inversion Hf as [ | | | st rs body Hst | st rs | st rs data' Hnd
                  | st rs d' Hst | st rs d' Htr | st rs d' Hnl
                  | st rs d' records Hd Hno
                  | st rs d' records other rest Hd Hno Hother];
    subst; simpl in *.
  - unfold is_http_error in Hh. simpl in Hh.
    apply andb_false_iff in Hh. destruct Hh as [Hh | Hh]; lia.
  - discriminate.
  - inversion Hj; subst. now elim (Hnd d).
  - inversion Hj; subst. congruence.
  - inversion Hj; subst. congruence.
  - inversion Hj; subst. now elim (Hnl l).
  - inversion Hj; subst. rewrite Ed in Hd. inversion Hd; subst.
    rewrite find_record_dicts in Efind.
    apply find_none in Hno. rewrite Hno in Efind. discriminate.
  - inversion Hj; subst. rewrite Ed in Hd. inversion Hd; subst.
    rewrite (find_record_bad_record _ _ _ _ Hno Hother) in Efind.
    discriminate.
Qed.

Lemma is_empty_false (s : string) : s <> "" -> is_empty s = false.
Proof. destruct s; [intros H; now elim H | reflexivity]. Qed.

(** A run of [main] in which the fetch gives no result ends normally. *)
Lemma main_no_result (API_KEY tl yl : string) (year : Z) (net : network)
    (tr : trace) :
  API_KEY <> "INSERT YOUR API KEY" ->
  upper (strip tl) <> "" ->
  py_int (strip yl) = Some year ->
  get_account_payables (VStr (upper (strip tl))) (VInt year) (VStr API_KEY) net
  = (tr, Ok None) ->
  main API_KEY tl yl net
  = ((main_prefix ++ tr
      ++ [Print ("✗ Failed to retrieve data for " ++ upper (strip tl)
                 ++ " in year " ++ str_of_Z year)])%list, Ok tt).
Proof.
  intros Hkey Ht Hy Hg. unfold main.
  apply String.eqb_neq in Hkey. rewrite Hkey.
  rewrite (is_empty_false _ Ht), Hy.
  cbn -[append nl repeat_str upper strip get_account_payables str_of_Z].
  rewrite Hg. reflexivity.
Qed.

(** [C4, amended] For every input that passes validation the call returns
    and never raises.  A timeout, a connection failure, any other error of
    the request, an HTTP status from 400 to 599, a body that is not JSON
    or not an object, a status field other than "success", an empty or
    missing data field, a data field that is not a list, a list without a
    matching year or with an item that is not a mapping: each gives [None]
    after one printed line, and [main] then ends with exit status 0. *)
Theorem failures_become_no_result (t y k : value) (net : network)
    (ticker : string) (year : Z) (api_key : string) :
  check_arguments t y k = Ok (ticker, year, api_key) ->
  (exists tr o, get_account_payables t y k net = (tr, Ok o))
  /\ (fetch_failure year (net (request_for ticker)) ->
      exists msg,
        get_account_payables t y k net
        = ((fetch_prefix ticker ++ [Print msg])%list, Ok None))
  /\ (forall tl yl,
        fetch_failure year (net (request_for ticker)) ->
        api_key <> "INSERT YOUR API KEY" ->
        upper (strip tl) = ticker ->
        py_int (strip yl) = Some year ->
        exit_status (snd (main api_key tl yl net)) = 0).
Proof.
  intros Hc.
  assert (Hfail : fetch_failure year (net (request_for ticker)) ->
                  exists msg,
                    get_account_payables t y k net
                    = ((fetch_prefix ticker ++ [Print msg])%list, Ok None)).
  { intros Hf. unfold get_account_payables. rewrite Hc.
    destruct (fetch_outcome ticker year api_key net)
      as [(result & r & data & _ & Hn & Hh & Hj & Hs & _) | [msg ->]];
      [ | eauto].
    rewrite Hn in Hf.
    now elim (selected_not_failure year r data result Hh Hj Hs). }
  split; [ | split; [exact Hfail | ]].
  - unfold get_account_payables. rewrite Hc.
    destruct (fetch_outcome ticker year api_key net)
      as [(result & r & data & -> & _) | [msg ->]]; eauto.
  - intros tl yl Hf Hkey Ht Hy.
    destruct (Hfail Hf) as [msg Hg].
    apply check_arguments_ok in Hc.
    destruct Hc as [[-> Hne] [[-> _] [-> _]]].
    rewrite <- Ht in Hg, Hne.
    rewrite (main_no_result _ _ _ _ _ _ Hkey Hne Hy Hg). reflexivity.
Qed.

(** [C1] For the validated call with API key "secret" the request goes to
    the URL of the ticker with a Content-Type of application/json and a
    timeout of 10, but its x-api-key header holds the literal
    "APIKEYINSERT", not the key that was passed. *)
Theorem api_key_header_is_literal (net : network) :
  check_arguments (VStr "X") (VInt 2025) (VStr "secret")
  = Ok ("X", 2025, "secret")
  /\ requests_of (fst (get_account_payables
                         (VStr "X") (VInt 2025) (VStr "secret") net))
     = [request_for "X"]
  /\ req_url (request_for "X")
     = "https://ac-api-server.vercel.app/server/company/X"
  /\ req_timeout (request_for "X") = 10
  /\ header "Content-Type" (request_for "X") = Some "application/json"
  /\ header "x-api-key" (request_for "X") = Some "APIKEYINSERT"
  /\ header "x-api-key" (request_for "X") <> Some "secret".
Proof.
  change (get_account_payables (VStr "X") (VInt 2025) (VStr "secret") net)
    with (fetch "X" 2025 "secret" net).
  rewrite fetch_requests. repeat split. discriminate.
Qed.

(* ================================================================== *)
(** ** Properties of the report and of [main] *)
(* ================================================================== *)

Lemma display_none :
  display_account_payables None = ([Print "No data to display"], Ok tt).
Proof. reflexivity. Qed.

(** With an int for the amount the whole report is written. *)
Lemma display_int_amount (r : Result.t) (z : Z) :
  Result.accountPayables r = VInt z ->
  display_account_payables (Some r)
  = ((report_head (py_str (Result.company_name r)) (py_str (Result.ticker r))
        (py_str (Result.year r)) (py_str (Result.period r))
        (py_str (Result.filing_date r)) (py_str (Result.currency r))
      ++ [Print ("Account Payables:     " ++ format_int_space_comma z ++ " "
                 ++ py_str (Result.currency r));
          Print (repeat_str "=" 70 ++ nl)])%list, Ok tt).
Proof.
  intros H. unfold display_account_payables. rewrite H. reflexivity.
Qed.

(** [C7] On the summary of a record without [accountPayables] the
    presenter writes the report down to the divider and then raises a
    [TypeError]: the amount line and the closing banner are not written. *)
Theorem display_fails_on_null_amount :
  Result.accountPayables (project record_without_payables) = VNone
  /\ display_account_payables (Some (project record_without_payables))
     = (report_head "None" "X" "2025" "None" "None" "USD",
        Raise (TypeError
                 "unsupported format string passed to NoneType.__format__")).
Proof. split; reflexivity. Qed.

(** [C6] With the API key set, a ticker and a year entered and accepted
    by validation, [main] still ends with exit status 1 when the matched
    record has no [accountPayables] (an uncaught [TypeError]) or has a
    string there (a [ValueError] of the presenter, taken for a validation
    error). *)
Theorem main_exits_1_on_bad_amount :
  String.eqb "k3y" "INSERT YOUR API KEY" = false
  /\ upper (strip "x") = "X"
  /\ py_int (strip "2025") = Some 2025
  /\ check_arguments (VStr "X") (VInt 2025) (VStr "k3y") = Ok ("X", 2025, "k3y")
  /\ snd (main "k3y" "x" "2025" null_amount_network)
     = Raise (TypeError
                "unsupported format string passed to NoneType.__format__")
  /\ exit_status (snd (main "k3y" "x" "2025" null_amount_network)) = 1
  /\ snd (main "k3y" "x" "2025" text_amount_network) = Raise (SystemExit 1)
  /\ exit_status (snd (main "k3y" "x" "2025" text_amount_network)) = 1.
Proof. repeat split. Qed.

Lemma display_outcome (r : Result.t) :
  display_account_payables (Some r)
  = let head :=
      report_head (py_str (Result.company_name r)) (py_str (Result.ticker r))
        (py_str (Result.year r)) (py_str (Result.period r))
        (py_str (Result.filing_date r)) (py_str (Result.currency r)) in
    match format_space_comma (Result.accountPayables r) with
    | Ok amount =>
        ((head ++ [Print ("Account Payables:     " ++ amount ++ " "
                          ++ py_str (Result.currency r));
                   Print (repeat_str "=" 70 ++ nl)])%list, Ok tt)
    | Raise e => (head, Raise e)
    end.
Proof.
  unfold display_account_payables.
  destruct (format_space_comma (Result.accountPayables r)); reflexivity.
Qed.

Lemma format_space_comma_raises (v : value) (e : exn) :
  format_space_comma v = Raise e ->
  exists msg, e = ValueError msg \/ e = TypeError msg.
Proof.
  destruct v; simpl; intros H; inversion H; eauto.
Qed.

Lemma get_account_payables_raises (t y k : value) (net : network)
    (tr : trace) (e : exn) :
  get_account_payables t y k net = (tr, Raise e) ->
  tr = [] /\ exists msg, e = ValueError msg.
Proof.
  unfold get_account_payables.
  destruct (check_arguments t y k) as [[[ticker year] api_key] | e'] eqn:Ec.
  - destruct (fetch_outcome ticker year api_key net)
      as [(result & r & data & -> & _) | [msg ->]]; discriminate.
  - intros H. inversion H; subst. split; [reflexivity | ].
    eapply check_arguments_raises; eauto.
Qed.

(** The exit status of [main], case by case. *)
Lemma main_exit_status (API_KEY tl yl : string) (net : network) :
  exit_status (snd (main API_KEY tl yl net))
  = if String.eqb API_KEY "INSERT YOUR API KEY" then 1
    else if is_empty (upper (strip tl)) then 1
    else match py_int (strip yl) with
         | None => 1
         | Some year =>
             match snd (get_account_payables (VStr (upper (strip tl)))
                          (VInt year) (VStr API_KEY) net) with
             | Raise _ => 1
             | Ok None => 0
             | Ok (Some r) => if amount_formats r then 0 else 1
             end
         end.
Proof.
  unfold main.
  destruct (String.eqb API_KEY "INSERT YOUR API KEY"); [reflexivity | ].
  destruct (is_empty (upper (strip tl))); [reflexivity | ].
  destruct (py_int (strip yl)) as [year | ]; [ | reflexivity].
  destruct (get_account_payables (VStr (upper (strip tl))) (VInt year)
              (VStr API_KEY) net) as [tr [[r | ] | e]] eqn:Eg.
  - cbn -[display_account_payables format_space_comma append nl repeat_str].
    rewrite display_outcome. unfold amount_formats.
    destruct (format_space_comma (Result.accountPayables r))
      as [amount | e] eqn:Ef.
    + reflexivity.
    + destruct (format_space_comma_raises _ _ Ef) as [msg [-> | ->]];
        reflexivity.
  - reflexivity.
  - destruct (get_account_payables_raises _ _ _ _ _ _ Eg) as [_ [msg ->]].
    reflexivity.
Qed.

Lemma get_account_payables_ext (t y k : value) (net1 net2 : network) :
  (forall ticker year api_key,
      check_arguments t y k = Ok (ticker, year, api_key) ->
      net1 (request_for ticker) = net2 (request_for ticker)) ->
  get_account_payables t y k net1 = get_account_payables t y k net2.
Proof.
  intros H. unfold get_account_payables.
  destruct (check_arguments t y k) as [[[ticker year] api_key] | e] eqn:Ec;
    [ | reflexivity].
  apply fetch_ext. exact (H ticker year api_key eq_refl).
Qed.

(* ================================================================== *)
(** ** The normalisation of the entered ticker *)
(* ================================================================== *)

Lemma lower_range (c : ascii) :
  is_lower c = true <-> (97 <= nat_of_ascii c <= 122)%nat.
Proof.
  unfold is_lower. rewrite andb_true_iff, !Nat.leb_le. tauto.
Qed.

Lemma is_space_above (c : ascii) :
  (32 < nat_of_ascii c)%nat -> is_space c = false.
Proof.
  intros H. unfold is_space. apply orb_false_iff.
  split; apply andb_false_iff; right; apply Nat.leb_gt; lia.
Qed.

Lemma upper_char_pair (a b : ascii) :
  is_lower a = true -> nat_of_ascii a = (nat_of_ascii b + 32)%nat ->
  upper_char a = b /\ upper_char b = b
  /\ is_space a = false /\ is_space b = false.
Proof.
  intros Hl Hn. pose proof (proj1 (lower_range a) Hl) as Hr.
  assert (Hb : is_lower b = false).
  { destruct (is_lower b) eqn:E; [ | reflexivity].
    apply lower_range in E. lia. }
  unfold upper_char. rewrite Hl, Hb. repeat split.
  - rewrite Hn. replace (nat_of_ascii b + 32 - 32)%nat with (nat_of_ascii b)
      by lia.
    apply ascii_nat_embedding.
  - apply is_space_above. lia.
  - apply is_space_above. lia.
Qed.

Lemma same_char_upper (a b : ascii) :
  same_char_ci a b -> upper_char a = upper_char b.
Proof.
  intros [-> | [[Hl Hn] | [Hl Hn]]]; [reflexivity | | ].
  - destruct (upper_char_pair a b Hl Hn) as (-> & -> & _). reflexivity.
  - destruct (upper_char_pair b a Hl Hn) as (-> & -> & _). reflexivity.
Qed.

Lemma same_char_space (a b : ascii) :
  same_char_ci a b -> is_space a = is_space b.
Proof.
  intros [-> | [[Hl Hn] | [Hl Hn]]]; [reflexivity | | ].
  - destruct (upper_char_pair a b Hl Hn) as (_ & _ & -> & ->). reflexivity.
  - destruct (upper_char_pair b a Hl Hn) as (_ & _ & -> & ->). reflexivity.
Qed.

Lemma same_text_upper (s t : string) :
  same_text_ci s t -> upper s = upper t.
Proof.
  induction 1 as [ | a b s t Hc _ IH]; simpl; [reflexivity | ].
  now rewrite (same_char_upper a b Hc), IH.
Qed.

Lemma same_text_lstrip (s t : string) :
  same_text_ci s t -> same_text_ci (lstrip s) (lstrip t).
Proof.
  induction 1 as [ | a b s t Hc Hst IH]; simpl; [constructor | ].
  rewrite (same_char_space a b Hc).
  destruct (is_space b); [exact IH | now constructor].
Qed.

Lemma same_text_empty (s t : string) :
  same_text_ci s t -> is_empty s = is_empty t.
Proof. now destruct 1. Qed.

Lemma same_text_rstrip (s t : string) :
  same_text_ci s t -> same_text_ci (rstrip s) (rstrip t).
Proof.
  induction 1 as [ | a b s t Hc Hst IH]; simpl; [constructor | ].
  rewrite (same_char_space a b Hc), (same_text_empty _ _ IH).
  destruct (is_space b && is_empty (rstrip t)); now constructor.
Qed.

Lemma lstrip_blank_prefix (l s : string) :
  all_space l = true -> lstrip (l ++ s) = lstrip s.
Proof.
  induction l as [ | c l IH]; simpl; [reflexivity | ].
  intros H. apply andb_true_iff in H. destruct H as [Hc Hl].
  rewrite Hc. now apply IH.
Qed.

Lemma lstrip_blank (s : string) : all_space s = true -> lstrip s = "".
Proof.
  induction s as [ | c s IH]; simpl; [reflexivity | ].
  intros H. apply andb_true_iff in H. destruct H as [Hc Hs].
  rewrite Hc. now apply IH.
Qed.

Lemma rstrip_blank (s : string) : all_space s = true -> rstrip s = "".
Proof.
  induction s as [ | c s IH]; simpl; [reflexivity | ].
  intros H. apply andb_true_iff in H. destruct H as [Hc Hs].
  rewrite Hc, (IH Hs). reflexivity.
Qed.

Lemma rstrip_blank_suffix (s r : string) :
  all_space r = true -> rstrip (s ++ r) = rstrip s.
Proof.
  intros Hr. induction s as [ | c s IH]; simpl.
  - now apply rstrip_blank.
  - now rewrite IH.
Qed.

Lemma lstrip_app (c r : string) :
  lstrip (c ++ r) = if all_space c then lstrip r else lstrip c ++ r.
Proof.
  induction c as [ | a c IH]; simpl; [reflexivity | ].
  destruct (is_space a); [exact IH | reflexivity].
Qed.

Lemma strip_padding (l c r : string) :
  all_space l = true -> all_space r = true ->
  strip (l ++ c ++ r) = strip c.
Proof.
  intros Hl Hr. unfold strip.
  rewrite (lstrip_blank_prefix l (c ++ r) Hl), lstrip_app.
  destruct (all_space c) eqn:Ec.
  - now rewrite (lstrip_blank r Hr), (lstrip_blank c Ec).
  - now apply rstrip_blank_suffix.
Qed.

Lemma ticker_variant_normalised (t1 t2 : string) :
  ticker_variant t1 t2 -> upper (strip t1) = upper (strip t2).
Proof.
  intros [l1 c1 r1 l2 c2 r2 Hl1 Hr1 Hl2 Hr2 Hc].
  rewrite (strip_padding l1 c1 r1 Hl1 Hr1), (strip_padding l2 c2 r2 Hl2 Hr2).
  apply same_text_upper. unfold strip.
  now apply same_text_rstrip, same_text_lstrip.
Qed.

(* ================================================================== *)
(** ** Further properties of [get_account_payables] *)
(* ================================================================== *)

Lemma find_record_origin (l : list value) (year : Z) (result : Result.t) :
  find_record l year = Ok (Some result) ->
  exists record,
    In (VDict record) l /\ year_matches year record = true
    /\ result = project record.
Proof.
  induction l as [ | v l IH]; simpl; [discriminate | ].
  destruct v as [ | b | z | f | t | items | record]; try discriminate.
  destruct (year_matches year record) eqn:E.
  - intros H. inversion H; subst. exists record. auto.
  - intros H. destruct (IH H) as (record' & Hin & Hm & ->). eauto.
Qed.

(** [X1] A call that passes validation sends exactly one request, right
    after announcing it; it returns a summary with nothing more printed,
    or [None] with exactly one more line. *)
Theorem one_request_per_call (t y k : value) (net : network)
    (ticker : string) (year : Z) (api_key : string) :
  check_arguments t y k = Ok (ticker, year, api_key) ->
  requests_of (fst (get_account_payables t y k net)) = [request_for ticker]
  /\ ((exists result,
         get_account_payables t y k net
         = (fetch_prefix ticker, Ok (Some result)))
      \/ (exists msg,
            get_account_payables t y k net
            = ((fetch_prefix ticker ++ [Print msg])%list, Ok None))).
Proof.
  intros Hc. unfold get_account_payables. rewrite Hc.
  split; [apply fetch_requests | ].
  destruct (fetch_outcome ticker year api_key net)
    as [(result & r & data & -> & _) | [msg ->]]; eauto.
Qed.

(** [X2] A returned summary is the projection of an item of the "data"
    list of the response to the request: the response has no 4xx or 5xx
    status, its body is an object with status "success", and the item is
    a mapping whose year compares equal to the requested one. *)
Theorem result_comes_from_response (t y k : value) (net : network)
    (tr : trace) (result : Result.t) :
  get_account_payables t y k net = (tr, Ok (Some result)) ->
  exists ticker year api_key r d items record,
    check_arguments t y k = Ok (ticker, year, api_key)
    /\ net (request_for ticker) = Responded r
    /\ is_http_error r = false
    /\ json r = Some (VDict d)
    /\ eq_str (dict_get d "status") "success" = true
    /\ dict_get d "data" = VList items
    /\ In (VDict record) items
    /\ year_matches year record = true
    /\ result = project record.
Proof.
  unfold get_account_payables.
  destruct (check_arguments t y k) as [[[ticker year] api_key] | e] eqn:Ec;
    [ | discriminate].
  destruct (fetch_outcome ticker year api_key net)
    as [(result' & r & data & -> & Hn & Hh & Hj & Hs & _) | [msg ->]];
    intros H; inversion H; subst.
  destruct (select_record_outcome data year)
    as [(result' & d & l & Hs' & -> & Est & _ & Ed & Ef)
       | [[msg Hs'] | [msg Hs']]];
    [ | congruence | congruence].
  assert (result' = result) by congruence. subst result'.
  destruct (find_record_origin _ _ _ Ef) as (record & Hin & Hm & ->).
  exists ticker, year, api_key, r, d, l, record. auto 10.
Qed.

(** [X3] Each failure has its own line: the diagnostics of a validated
    call name the timeout, the connection error, any other request error
    with its text, the HTTP status and reason (whatever the body), a body
    that is not JSON, a body that is not an object, a data field that is
    not a list, and a list of mappings without the year. *)
Theorem failure_diagnostics (t y k : value) (net : network)
    (ticker : string) (year : Z) (api_key : string) :
  check_arguments t y k = Ok (ticker, year, api_key) ->
  (forall m, net (request_for ticker) = TimedOut m ->
     get_account_payables t y k net
     = ((fetch_prefix ticker
         ++ [Print ("Request timed out while fetching data for " ++ ticker)])%list,
        Ok None))
  /\ (forall m, net (request_for ticker) = ConnectionFailed m ->
        get_account_payables t y k net
        = ((fetch_prefix ticker
            ++ [Print ("Connection error while fetching data for "
                       ++ ticker)])%list,
           Ok None))
  /\ (forall m, net (request_for ticker) = RequestFailed m ->
        get_account_payables t y k net
        = ((fetch_prefix ticker ++ [Print ("Unexpected error: " ++ m)])%list,
           Ok None))
  /\ (forall r, net (request_for ticker) = Responded r ->
        is_http_error r = true ->
        get_account_payables t y k net
        = ((fetch_prefix ticker
            ++ [Print ("HTTP Error: " ++ str_of_Z (status_code r) ++ " - "
                       ++ reason r)])%list,
           Ok None))
  /\ (forall r, net (request_for ticker) = Responded r ->
        is_http_error r = false -> json r = None ->
        get_account_payables t y k net
        = ((fetch_prefix ticker
            ++ [Print "Error: Could not parse API response as JSON"])%list,
           Ok None))
  /\ (forall r data, net (request_for ticker) = Responded r ->
        is_http_error r = false -> json r = Some data ->
        (forall d, data <> VDict d) ->
        get_account_payables t y k net
        = ((fetch_prefix ticker
            ++ [Print ("Unexpected error: " ++ no_attribute_get data)])%list,
           Ok None))
  /\ (forall r d, net (request_for ticker) = Responded r ->
        is_http_error r = false -> json r = Some (VDict d) ->
        eq_str (dict_get d "status") "success" = true ->
        truthy (dict_get d "data") = true ->
        (forall l, dict_get d "data" <> VList l) ->
        get_account_payables t y k net
        = ((fetch_prefix ticker
            ++ [Print "Error: Expected data to be a list of records"])%list,
           Ok None))
  /\ (forall r d records, net (request_for ticker) = Responded r ->
        is_http_error r = false -> json r = Some (VDict d) ->
        eq_str (dict_get d "status") "success" = true ->
        records <> [] ->
        dict_get d "data" = VList (map VDict records) ->
        Forall (fun record => year_matches year record = false) records ->
        get_account_payables t y k net
        = ((fetch_prefix ticker
            ++ [Print ("No data found for year " ++ str_of_Z year)])%list,
           Ok None)).
Proof.
  intros Hc.
  unfold get_account_payables. rewrite Hc.
  unfold fetch, requests_get. fold (request_for ticker).
  repeat split.
  - intros m ->. reflexivity.
  - intros m ->. reflexivity.
  - intros m ->. reflexivity.
  - intros r -> Hh. run_script. unfold raise_for_status. rewrite Hh.
    reflexivity.
  - intros r -> Hh Hj. run_script. unfold raise_for_status, response_json.
    rewrite Hh, Hj. reflexivity.
  - intros r data -> Hh Hj Hd. run_script.
    unfold raise_for_status, response_json. rewrite Hh, Hj.
    destruct data; try reflexivity. now elim (Hd items).
  - intros r d -> Hh Hj Hst Htr Hl. run_script.
    unfold raise_for_status, response_json. rewrite Hh, Hj. run_script.
    unfold select_record. rewrite Hst, Htr.
    unfold dict_get in Hl, Htr. unfold dict_get_default in *.
    destruct (assoc "data" d) as [v | ]; [ | discriminate].
    destruct v; try reflexivity. now elim (Hl items).
  - intros r d records -> Hh Hj Hst Hne Hd Hno. run_script.
    unfold raise_for_status, response_json. rewrite Hh, Hj. run_script.
    unfold select_record. rewrite Hst, Hd.
    assert (Hd' : dict_get_default d "data" (VList [])
                  = VList (map VDict records)).
    { unfold dict_get in Hd. unfold dict_get_default in *.
      destruct (assoc "data" d); [exact Hd | discriminate]. }
    rewrite Hd', find_record_dicts.
    apply find_none in Hno. rewrite Hno.
    destruct records; [now elim Hne | reflexivity].
Qed.

(** [X4] The API key plays no part once it is a non-empty string: two
    calls that differ only in their keys behave the same, event for event.
    The key is checked and then left out of the request. *)
Theorem api_key_is_irrelevant (t y : value) (k1 k2 : string) (net : network) :
  k1 <> "" -> k2 <> "" ->
  get_account_payables t y (VStr k1) net
  = get_account_payables t y (VStr k2) net.
Proof.
  intros H1 H2. unfold get_account_payables, check_arguments.
  destruct (if truthy t then as_str t else None) as [ticker | ];
    [ | reflexivity].
  destruct (as_int y) as [year | ]; [ | reflexivity].
  destruct ((year <? 1900) || (year >? 2100)); [reflexivity | ].
  simpl. rewrite (is_empty_false k1 H1), (is_empty_false k2 H2).
  reflexivity.
Qed.

(** [X5] The search goes through a list part by part: what an earlier
    part gives, a record or the error of an item that is not a mapping,
    stands whatever follows; only when the earlier part has no match is
    the later part searched. *)
Theorem find_record_app (before after : list value) (year : Z) :
  find_record (before ++ after) year
  = match find_record before year with
    | Ok None => find_record after year
    | found => found
    end.
Proof.
  induction before as [ | v before IH]; simpl; [reflexivity | ].
  destruct v as [ | b | z | f | t | items | record]; try reflexivity.
  destruct (year_matches year record); [reflexivity | exact IH].
Qed.

(** [X6] The line printed for a refused payload shows the status field:
    "Unknown error" when the field is missing, the status text when it is
    another string, and "success" itself when the status is "success" but
    the data field is missing or empty. *)
Theorem api_error_line (d : dict) (year : Z) :
  (assoc "status" d = None ->
   select_record (VDict d) year
   = ([Print "API Error: Unknown error"], Ok None))
  /\ (forall s, dict_get d "status" = VStr s -> s <> "success" ->
        select_record (VDict d) year
        = ([Print ("API Error: " ++ s)], Ok None))
  /\ (dict_get d "status" = VStr "success" ->
      truthy (dict_get d "data") = false ->
      select_record (VDict d) year
      = ([Print "API Error: success"], Ok None)).
Proof.
  unfold select_record, dict_get, dict_get_default. repeat split.
  - intros ->. reflexivity.
  - intros s Hs Hne.
    destruct (assoc "status" d) as [v | ]; [ | discriminate]. subst v.
    simpl. apply String.eqb_neq in Hne. rewrite Hne. reflexivity.
  - intros Hs Ht.
    destruct (assoc "status" d) as [v | ]; [ | discriminate]. subst v.
    simpl. rewrite Ht. reflexivity.
Qed.

(** [X7] Validation reports the first argument that fails, in the order
    ticker, year, key, each with its own message. *)
Theorem validation_messages (t y k : value) :
  (invalid_text t ->
   check_arguments t y k
   = Raise (ValueError "Ticker must be a non-empty string"))
  /\ (~ invalid_text t -> invalid_year y ->
      check_arguments t y k
      = Raise (ValueError
                 "Year must be a valid integer between 1900 and 2100"))
  /\ (~ invalid_text t -> ~ invalid_year y -> invalid_text k ->
      check_arguments t y k
      = Raise (ValueError "API key must be a non-empty string")).
Proof.
  unfold check_arguments. repeat split.
  - intros Ht. apply truthy_as_str_none in Ht. now rewrite Ht.
  - intros Ht Hy.
    destruct (if truthy t then as_str t else None) as [s | ] eqn:Et;
      [ | now apply truthy_as_str_none in Et].
    destruct (valid_year_dec y) as [_ | [z [-> Hz]]].
    + destruct y as [ | b | z | f | u | l | d]; try reflexivity.
      * now destruct b.
      * simpl. specialize (Hy z eq_refl).
        replace ((z <? 1900) || (z >? 2100)) with true; [reflexivity | ].
        symmetry. apply orb_true_iff. lia.
    + specialize (Hy z eq_refl). lia.
  - intros Ht Hy Hk.
    destruct (if truthy t then as_str t else None) as [s | ] eqn:Et;
      [ | now apply truthy_as_str_none in Et].
    destruct (valid_year_dec y) as [Hy' | [z [-> Hz]]]; [now elim Hy | ].
    simpl. replace ((z <? 1900) || (z >? 2100)) with false.
    + apply truthy_as_str_none in Hk. now rewrite Hk.
    + symmetry. apply orb_false_iff. lia.
Qed.

(* ================================================================== *)
(** ** Further properties of [display_account_payables] and [main] *)
(* ================================================================== *)

Lemma amount_formats_number (r : Result.t) :
  amount_formats r = is_number (Result.accountPayables r).
Proof.
  unfold amount_formats. now destruct (Result.accountPayables r).
Qed.

Lemma preflight_some (API_KEY tl yl ticker : string) (year : Z) :
  preflight API_KEY tl yl = Some (ticker, year) ->
  String.eqb API_KEY "INSERT YOUR API KEY" = false
  /\ ticker = upper (strip tl)
  /\ is_empty ticker = false
  /\ py_int (strip yl) = Some year
  /\ check_arguments (VStr ticker) (VInt year) (VStr API_KEY)
     = Ok (ticker, year, API_KEY).
Proof.
  unfold preflight.
  destruct (String.eqb API_KEY "INSERT YOUR API KEY"); [discriminate | ].
  destruct (is_empty (upper (strip tl))) eqn:Et; [discriminate | ].
  destruct (py_int (strip yl)) as [y | ]; [ | discriminate].
  destruct ((y <? 1900) || (y >? 2100)) eqn:Er; [discriminate | ].
  destruct (is_empty API_KEY) eqn:Ek; [discriminate | ].
  intros H. inversion H; subst. repeat split; try assumption.
  unfold check_arguments. simpl. now rewrite Et, Er, Ek.
Qed.

(** A run in which a check fails ends with [sys.exit(1)] before any
    request. *)
Lemma main_preflight_none (API_KEY tl yl : string) (net : network) :
  preflight API_KEY tl yl = None ->
  snd (main API_KEY tl yl net) = Raise (SystemExit 1)
  /\ requests_of (fst (main API_KEY tl yl net)) = [].
Proof.
  unfold preflight, main.
  destruct (String.eqb API_KEY "INSERT YOUR API KEY"); [now split | ].
  destruct (is_empty (upper (strip tl))) eqn:Et; [now split | ].
  destruct (py_int (strip yl)) as [y | ]; [ | now split].
  unfold get_account_payables, check_arguments. simpl. rewrite Et. simpl.
  destruct ((y <? 1900) || (y >? 2100)); [now split | ].
  destruct (is_empty API_KEY); [now split | discriminate].
Qed.

(** The two ways a validated call ends. *)
Lemma call_outcome (t y k : value) (net : network)
    (ticker : string) (year : Z) (api_key : string) :
  check_arguments t y k = Ok (ticker, year, api_key) ->
  (exists r,
      get_account_payables t y k net = (fetch_prefix ticker, Ok (Some r)))
  \/ (exists msg,
        get_account_payables t y k net
        = ((fetch_prefix ticker ++ [Print msg])%list, Ok None)).
Proof.
  intros Hc. unfold get_account_payables. rewrite Hc.
  destruct (fetch_outcome ticker year api_key net)
    as [(result & r & data & -> & _) | [msg ->]]; eauto.
Qed.

(** A run in which every check passes, by what the fetch gives. *)
Lemma main_run (API_KEY tl yl ticker : string) (year : Z) (net : network) :
  preflight API_KEY tl yl = Some (ticker, year) ->
  (exists msg,
      get_account_payables (VStr ticker) (VInt year) (VStr API_KEY) net
      = ((fetch_prefix ticker ++ [Print msg])%list, Ok None)
      /\ main API_KEY tl yl net
         = ((main_prefix ++ fetch_prefix ticker
             ++ [Print msg; failure_line ticker year])%list, Ok tt))
  \/ (exists r,
        get_account_payables (VStr ticker) (VInt year) (VStr API_KEY) net
        = (fetch_prefix ticker, Ok (Some r))
        /\ main API_KEY tl yl net
           = match format_space_comma (Result.accountPayables r) with
             | Ok amount =>
                 ((main_prefix ++ fetch_prefix ticker ++ report_of r
                   ++ [Print ("Account Payables:     " ++ amount ++ " "
                              ++ py_str (Result.currency r));
                       Print (repeat_str "=" 70 ++ nl);
                       Print ("✓ Successfully retrieved Account Payables:  "
                              ++ amount)])%list, Ok tt)
             | Raise (ValueError msg) =>
                 ((main_prefix ++ fetch_prefix ticker ++ report_of r
                   ++ [Print ("Error: " ++ msg)])%list, Raise (SystemExit 1))
             | Raise e =>
                 ((main_prefix ++ fetch_prefix ticker ++ report_of r)%list,
                  Raise e)
             end).
Proof.
  intros Hp. destruct (preflight_some _ _ _ _ _ Hp) as (Hk & -> & Ht & Hy & Hc).
  unfold main. rewrite Hk, Ht, Hy.
  destruct (call_outcome (VStr (upper (strip tl))) (VInt year)
              (VStr API_KEY) net _ _ _ Hc) as [[r Hg] | [msg Hg]].
  - right. exists r. split; [exact Hg | ]. rewrite Hg.
    cbn -[display_account_payables format_space_comma append nl repeat_str
          fetch_prefix upper strip].
    rewrite display_outcome.
    destruct (format_space_comma (Result.accountPayables r))
      as [amount | e] eqn:Ef; [reflexivity | ].
    destruct (format_space_comma_raises _ _ Ef) as [msg [-> | ->]];
      reflexivity.
  - left. exists msg. split; [exact Hg | ]. rewrite Hg. reflexivity.
Qed.

(** [X8] The presenter writes the whole report, twelve lines, exactly
    when the amount is a number (an int, a bool or a float).  Otherwise it
    stops after the divider with the exception of the format field: a
    [ValueError] for a string, a [TypeError] for null, a list or a dict. *)
Theorem display_completes_iff_number (r : Result.t) :
  (snd (display_account_payables (Some r)) = Ok tt
   <-> is_number (Result.accountPayables r) = true)
  /\ (is_number (Result.accountPayables r) = true ->
      List.length (fst (display_account_payables (Some r))) = 12%nat)
  /\ (is_number (Result.accountPayables r) = false ->
      fst (display_account_payables (Some r)) = report_of r
      /\ exists msg,
           snd (display_account_payables (Some r))
           = Raise (match Result.accountPayables r with
                    | VStr _ => ValueError msg
                    | _ => TypeError msg
                    end)).
Proof.
  rewrite display_outcome. fold (report_of r).
  destruct (Result.accountPayables r); simpl;
    repeat split; try discriminate; try reflexivity; eauto.
Qed.

(** [X9] For ASCII entries (the year entry of at most 4300 characters),
    the exit status of [main] is 0 or 1, and it is 0 exactly when the key
    is set, the ticker is not blank, the year is an integer from 1900 to
    2100, and the fetch either gives no result or gives a summary whose
    amount is a number. *)
Theorem main_exit_status_iff (API_KEY tl yl : string) (net : network) :
  ascii_only tl = true -> ascii_only yl = true ->
  (String.length yl <=? 4300)%nat = true ->
  (exit_status (snd (main API_KEY tl yl net)) = 0
   \/ exit_status (snd (main API_KEY tl yl net)) = 1)
  /\ (exit_status (snd (main API_KEY tl yl net)) = 0 <->
      exists ticker year,
        preflight API_KEY tl yl = Some (ticker, year)
        /\ forall tr r,
             get_account_payables (VStr ticker) (VInt year) (VStr API_KEY) net
             = (tr, Ok (Some r)) ->
             is_number (Result.accountPayables r) = true).
Proof.
  intros _ _ _.
  destruct (preflight API_KEY tl yl) as [[ticker year] | ] eqn:Hp.
  - destruct (main_run _ _ _ _ _ net Hp) as [(msg & Hg & ->) | (r & Hg & ->)].
    + split; [now left | ]. split; [ | reflexivity].
      intros _. exists ticker, year. split; [reflexivity | ].
      intros tr r H. rewrite Hg in H. discriminate.
    + pose proof (amount_formats_number r) as Hn. unfold amount_formats in Hn.
      destruct (format_space_comma (Result.accountPayables r))
        as [amount | e] eqn:Ef.
      * split; [now left | ]. split; [ | reflexivity].
        intros _. exists ticker, year. split; [reflexivity | ].
        intros tr r' H. rewrite Hg in H. inversion H; subst. now symmetry.
      * assert (Hbad : forall tr r',
                   get_account_payables (VStr ticker) (VInt year)
                     (VStr API_KEY) net = (tr, Ok (Some r')) ->
                   is_number (Result.accountPayables r') = true -> False).
        { intros tr r' H Hr. rewrite Hg in H. inversion H; subst.
          congruence. }
        destruct (format_space_comma_raises _ _ Ef) as [m [-> | ->]];
          (split; [now right | ]; split; [discriminate | ];
           intros (ticker' & year' & Heq & Hall); inversion Heq; subst;
           now elim (Hbad _ _ Hg (Hall _ _ Hg))).
  - destruct (main_preflight_none _ _ _ net Hp) as [-> _]. simpl.
    split; [now right | ]. split; [discriminate | ].
    intros (ticker & year & Heq & _). discriminate.
Qed.

(** [X10] For ASCII entries (the year entry of at most 4300 characters),
    [main] sends a request only when every check before the fetch passes,
    and then exactly one, for the stripped and upper-cased ticker; with
    the key unset, a blank ticker, a year that is not an integer or is out
    of range, it sends none. *)
Theorem main_requests (API_KEY tl yl : string) (net : network) :
  ascii_only tl = true -> ascii_only yl = true ->
  (String.length yl <=? 4300)%nat = true ->
  requests_of (fst (main API_KEY tl yl net))
  = match preflight API_KEY tl yl with
    | Some (ticker, _) => [request_for ticker]
    | None => []
    end.
Proof.
  intros _ _ _.
  destruct (preflight API_KEY tl yl) as [[ticker year] | ] eqn:Hp.
  - destruct (main_run _ _ _ _ _ net Hp) as [(msg & _ & ->) | (r & Hg & ->)];
      [reflexivity | ].
    destruct (format_space_comma (Result.accountPayables r))
      as [amount | e] eqn:Ef; [reflexivity | ].
    destruct (format_space_comma_raises _ _ Ef) as [m [-> | ->]];
      reflexivity.
  - now destruct (main_preflight_none _ _ _ net Hp) as [_ ->].
Qed.



(* ================================================================== *)
(** ** Further properties of the entered ticker and of the amount *)
(* ================================================================== *)

Lemma all_space_lstrip (s : string) :
  all_space (lstrip s) = true -> all_space s = true.
Proof.
  induction s as [ | c s IH]; simpl; [reflexivity | ].
  destruct (is_space c) eqn:Ec; simpl.
  - exact IH.
  - rewrite Ec. discriminate.
Qed.

Lemma rstrip_empty (s : string) : rstrip s = "" -> all_space s = true.
Proof.
  induction s as [ | c s IH]; simpl; [reflexivity | ].
  destruct (is_space c); simpl; [ | discriminate].
  destruct (rstrip s); [intros _; now apply IH | discriminate].
Qed.

Lemma strip_empty_iff (s : string) :
  is_empty (upper (strip s)) = true <-> all_space s = true.
Proof.
  split.
  - intros H. apply all_space_lstrip, rstrip_empty. unfold strip in H.
    destruct (rstrip (lstrip s)); [reflexivity | discriminate].
  - intros H. unfold strip. now rewrite (lstrip_blank s H).
Qed.

(** [X13] With the key set, [main] refuses an ASCII entry for the ticker
    as empty exactly when the entry is blank (empty or whitespace only): it then
    stops with exit status 1 after the first prompt, without asking for
    the year and without a request. *)
Theorem blank_ticker_is_refused (API_KEY tl yl : string) (net : network) :
  API_KEY <> "INSERT YOUR API KEY" -> ascii_only tl = true ->
  (all_space tl = true <->
   main API_KEY tl yl net = (blank_ticker_trace, Raise (SystemExit 1))).
Proof.
  intros Hk _. apply String.eqb_neq in Hk. unfold main. rewrite Hk.
  destruct (is_empty (upper (strip tl))) eqn:Et.
  - apply strip_empty_iff in Et. split; [reflexivity | now intros _].
  - split.
    + intros H. apply strip_empty_iff in H. congruence.
    + intros H. exfalso.
      destruct (py_int (strip yl)) as [year | ]; [ | discriminate].
      match type of H with
      | context [try_except ?m ?h] => destruct (try_except m h) as [t r]
      end.
      discriminate.
Qed.

Lemma upper_char_not_lower (c : ascii) : is_lower (upper_char c) = false.
Proof.
  unfold upper_char. destruct (is_lower c) eqn:El; [ | exact El].
  apply lower_range in El.
  destruct (is_lower (ascii_of_nat (nat_of_ascii c - 32))) eqn:E;
    [ | reflexivity].
  apply lower_range in E. rewrite nat_ascii_embedding in E; lia.
Qed.

Lemma upper_char_idem (c : ascii) : upper_char (upper_char c) = upper_char c.
Proof.
  unfold upper_char at 1. now rewrite upper_char_not_lower.
Qed.

Lemma upper_idem (s : string) : upper (upper s) = upper s.
Proof.
  induction s as [ | c s IH]; simpl; [reflexivity | ].
  now rewrite upper_char_idem, IH.
Qed.

Lemma is_space_upper_char (c : ascii) : is_space (upper_char c) = is_space c.
Proof.
  unfold upper_char. destruct (is_lower c) eqn:El; [ | reflexivity].
  apply lower_range in El.
  rewrite (is_space_above c) by lia.
  apply is_space_above. rewrite nat_ascii_embedding; lia.
Qed.

Lemma lstrip_upper (s : string) : lstrip (upper s) = upper (lstrip s).
Proof.
  induction s as [ | c s IH]; simpl; [reflexivity | ].
  rewrite is_space_upper_char. destruct (is_space c); [exact IH | reflexivity].
Qed.

Lemma is_empty_upper (s : string) : is_empty (upper s) = is_empty s.
Proof. now destruct s. Qed.

Lemma rstrip_upper (s : string) : rstrip (upper s) = upper (rstrip s).
Proof.
  induction s as [ | c s IH]; simpl; [reflexivity | ].
  rewrite is_space_upper_char, IH, is_empty_upper.
  now destruct (is_space c && is_empty (rstrip s)).
Qed.

Lemma rstrip_idem (s : string) : rstrip (rstrip s) = rstrip s.
Proof.
  induction s as [ | c s IH]; simpl; [reflexivity | ].
  destruct (is_space c && is_empty (rstrip s)) eqn:E; simpl;
    [reflexivity | ].
  now rewrite IH, E.
Qed.

Lemma lstrip_rstrip_lstrip (s : string) :
  lstrip (rstrip (lstrip s)) = rstrip (lstrip s).
Proof.
  induction s as [ | c s IH]; simpl; [reflexivity | ].
  destruct (is_space c) eqn:Ec; [exact IH | ].
  simpl. rewrite Ec. simpl. now rewrite Ec.
Qed.

Lemma strip_idem (s : string) : strip (strip s) = strip s.
Proof.
  unfold strip. now rewrite lstrip_rstrip_lstrip, rstrip_idem.
Qed.

(** [X14] The ticker [main] works with is in normal form: stripping it or
    upper-casing it again changes nothing, and entering the ticker in that
    form gives the same run as the original entry. *)
Theorem normalised_ticker_is_fixed (API_KEY tl yl : string) (net : network) :
  strip (upper (strip tl)) = upper (strip tl)
  /\ upper (upper (strip tl)) = upper (strip tl)
  /\ main API_KEY (upper (strip tl)) yl net = main API_KEY tl yl net.
Proof.
  assert (Hs : strip (upper (strip tl)) = upper (strip tl)).
  { unfold strip at 1. rewrite lstrip_upper, rstrip_upper.
    fold (strip (strip tl)). now rewrite strip_idem. }
  split; [exact Hs | ]. split; [apply upper_idem | ].
  unfold main. now rewrite Hs, upper_idem.
Qed.

Lemma uint_digits (d : Decimal.uint) :
  all_digits (NilEmpty.string_of_uint d) = true.
Proof. induction d; simpl; auto. Qed.

Lemma str_of_Z_digits (z : Z) : 0 <= z -> all_digits (str_of_Z z) = true.
Proof.
  intros Hz. unfold str_of_Z.
  destruct z as [ | p | p]; [reflexivity | | lia].
  simpl. destruct (Pos.to_uint p) eqn:E; try apply uint_digits.
  reflexivity.
Qed.

Lemma remove_commas_digits (s : string) :
  all_digits s = true -> remove_commas s = s.
Proof.
  induction s as [ | c s IH]; simpl; [reflexivity | ].
  destruct (digit_val c) eqn:Ed; [ | discriminate].
  intros H. rewrite (IH H).
  destruct (Ascii.eqb c ",") eqn:Ec; [ | reflexivity].
  apply Ascii.eqb_eq in Ec. subst c. discriminate.
Qed.

Lemma remove_commas_group3 (s : string) :
  all_digits s = true -> remove_commas (group3 s) = s.
Proof.
  induction s as [ | c s IH]; simpl; [reflexivity | ].
  destruct (digit_val c) eqn:Ed; [ | discriminate].
  intros H.
  assert (Hc : Ascii.eqb c "," = false).
  { destruct (Ascii.eqb c ",") eqn:Ec; [ | reflexivity].
    apply Ascii.eqb_eq in Ec. subst c. discriminate. }
  match goal with
  | |- context [if ?b then _ else _] => destruct b
  end; simpl; rewrite Hc; simpl; now rewrite (IH H).
Qed.

(** [X15] The amount that is shown is the amount: without its thousands
    separators the formatted int is the sign position, a space or a minus
    sign, followed by the decimal digits of its absolute value. *)
Theorem format_int_keeps_digits (z : Z) :
  remove_commas (format_int_space_comma z)
  = (if z <? 0 then "-" else " ") ++ str_of_Z (Z.abs z)
  /\ all_digits (str_of_Z (Z.abs z)) = true.
Proof.
  assert (Hd : all_digits (str_of_Z (Z.abs z)) = true)
    by (apply str_of_Z_digits; lia).
  split; [ | exact Hd]. unfold format_int_space_comma.
  destruct (z <? 0); simpl; now rewrite (remove_commas_group3 _ Hd).
Qed.

(* ================================================================== *)
(** ** Further properties of the entered year *)
(* ================================================================== *)









(** [X16] The year is read up to surrounding whitespace: an entry with
    blanks before or after it gives the same run as the entry without
    them. *)
Theorem year_entry_padding (API_KEY tl y l r : string) (net : network) :
  all_space l = true -> all_space r = true ->
  main API_KEY tl (l ++ y ++ r) net = main API_KEY tl y net.
Proof.
  intros Hl Hr. unfold main. now rewrite (strip_padding l y r Hl Hr).
Qed.


(* ================================================================== *)
(** ** Responses that differ in their status, and the ticker in use *)
(* ================================================================== *)

(** [C8, amended] Two runs with the same ticker, year and API key whose
    responses have the same body and the same status outcome (both
    statuses outside 400-599, or the same status code and reason) are the
    same run: [get_account_payables] writes the same events and gives the
    same result, and displaying the result writes the same bytes.  The
    status code and reason of a response that is no HTTP error never
    show. *)
Theorem same_response_same_output (t y k : value) (net1 net2 : network)
    (ticker : string) (year : Z) (api_key : string) (r1 r2 : response) :
  check_arguments t y k = Ok (ticker, year, api_key) ->
  net1 (request_for ticker) = Responded r1 ->
  net2 (request_for ticker) = Responded r2 ->
  same_outcome r1 r2 ->
  get_account_payables t y k net1 = get_account_payables t y k net2
  /\ (result <- get_account_payables t y k net1 ;;
      display_account_payables result)
     = (result <- get_account_payables t y k net2 ;;
        display_account_payables result)
  /\ stdout (fst (result <- get_account_payables t y k net1 ;;
                  display_account_payables result))
     = stdout (fst (result <- get_account_payables t y k net2 ;;
                    display_account_payables result)).
Proof.
  intros Hc H1 H2 [Hj Hs].
  assert (Hg : get_account_payables t y k net1
               = get_account_payables t y k net2).
  { unfold get_account_payables. rewrite Hc.
    unfold fetch, requests_get. fold (request_for ticker).
    rewrite H1, H2. run_script. unfold raise_for_status, response_json.
    destruct Hs as [[Ha Hb] | [Hcode Hreason]].
    - rewrite Ha, Hb, Hj. reflexivity.
    - assert (He : is_http_error r1 = is_http_error r2)
        by (unfold is_http_error; now rewrite Hcode).
      rewrite He, Hj, Hcode, Hreason. reflexivity. }
  now rewrite Hg.
Qed.

Lemma lstrip_decompose (s : string) :
  exists l, s = l ++ lstrip s /\ all_space l = true.
Proof.
  induction s as [ | c s IH]; simpl.
  - exists "". auto.
  - destruct (is_space c) eqn:E.
    + destruct IH as (l & Hl & Hb). exists (String c l). simpl.
      rewrite E, Hb. split; [now f_equal | reflexivity].
    + exists "". auto.
Qed.

Lemma rstrip_decompose (s : string) :
  exists r, s = rstrip s ++ r /\ all_space r = true.
Proof.
  induction s as [ | c s IH]; simpl.
  - exists "". auto.
  - destruct IH as (r & Hr & Hb).
    destruct (is_space c && is_empty (rstrip s)) eqn:E.
    + apply andb_true_iff in E. destruct E as [Ec Ee].
      destruct (rstrip s); [ | discriminate]. simpl in Hr. subst s.
      exists (String c r). simpl. now rewrite Ec, Hb.
    + exists r. simpl. split; [now f_equal | exact Hb].
Qed.

Lemma strip_decompose (s : string) :
  exists l r,
    s = l ++ strip s ++ r /\ all_space l = true /\ all_space r = true.
Proof.
  destruct (lstrip_decompose s) as (l & Hl & Hbl).
  destruct (rstrip_decompose (lstrip s)) as (r & Hr & Hbr).
  exists l, r. unfold strip. rewrite <- Hr. auto.
Qed.

Lemma lstrip_starts_clean (s : string) : starts_clean (lstrip s) = true.
Proof.
  induction s as [ | c s IH]; simpl; [reflexivity | ].
  destruct (is_space c) eqn:E; [exact IH | ]. simpl. now rewrite E.
Qed.

Lemma rstrip_starts_clean (s : string) :
  starts_clean s = true -> starts_clean (rstrip s) = true.
Proof.
  destruct s as [ | c s]; simpl; [reflexivity | ].
  intros H. apply negb_true_iff in H. rewrite H. simpl. now rewrite H.
Qed.

Lemma rstrip_ends_clean (s : string) : ends_clean (rstrip s) = true.
Proof.
  induction s as [ | c s IH]; simpl; [reflexivity | ].
  destruct (is_space c) eqn:E; destruct (rstrip s) eqn:R; simpl;
    try reflexivity; try exact IH.
  now rewrite E.
Qed.

Lemma strip_trimmed (s : string) : trimmed (strip s) = true.
Proof.
  unfold trimmed, strip. apply andb_true_iff. split.
  - apply rstrip_starts_clean, lstrip_starts_clean.
  - apply rstrip_ends_clean.
Qed.

Lemma same_char_upper_char (c : ascii) : same_char_ci c (upper_char c).
Proof.
  unfold upper_char. destruct (is_lower c) eqn:El; [ | now left].
  right; left. split; [exact El | ].
  apply lower_range in El. rewrite nat_ascii_embedding; lia.
Qed.

Lemma same_text_upper_self (s : string) : same_text_ci s (upper s).
Proof.
  induction s as [ | c s IH]; simpl; constructor;
    [apply same_char_upper_char | exact IH].
Qed.

Lemma upper_no_lower (s : string) : no_lower (upper s) = true.
Proof.
  induction s as [ | c s IH]; simpl; [reflexivity | ].
  now rewrite upper_char_not_lower, IH.
Qed.

Lemma bind_trace (A B : Type) (m : M A) (k : A -> M B) :
  exists rest, fst (bind m k) = (fst m ++ rest)%list.
Proof.
  destruct m as [t [a | e]]; simpl.
  - destruct (k a) as [t2 r]. now exists t2.
  - exists []. now rewrite app_nil_r.
Qed.

Lemma try_except_trace (A : Type) (m : M A) (h : exn -> M A) :
  exists rest, fst (try_except m h) = (fst m ++ rest)%list.
Proof.
  destruct m as [t [a | e]]; simpl.
  - exists []. now rewrite app_nil_r.
  - destruct (h e) as [t2 r]. now exists t2.
Qed.

Lemma main_requests_cases (API_KEY tl yl : string) (net : network) :
  requests_of (fst (main API_KEY tl yl net)) = []
  \/ requests_of (fst (main API_KEY tl yl net))
     = [request_for (upper (strip tl))].
Proof.
  destruct (preflight API_KEY tl yl) as [[ticker year] | ] eqn:Hp.
  - right. destruct (preflight_some _ _ _ _ _ Hp) as (_ & Ht & _).
    rewrite <- Ht.
    destruct (main_run _ _ _ _ _ net Hp) as [(msg & _ & ->) | (r & Hg & ->)];
      [reflexivity | ].
    destruct (format_space_comma (Result.accountPayables r))
      as [amount | e] eqn:Ef; [reflexivity | ].
    destruct (format_space_comma_raises _ _ Ef) as [m [-> | ->]];
      reflexivity.
  - left. now destruct (main_preflight_none _ _ _ net Hp) as [_ ->].
Qed.

(** [C10, amended] [main] strips and upper-cases the entered ticker
    before anything else is done with it.  For an ASCII entry, the ticker
    in use is the entry without the blanks around it, with no whitespace
    left at either end, the same text up to letter case and with no
    lower-case letter left; every request goes to the URL of that ticker;
    and when the key is set, the ticker is not empty and the year is read,
    the call of [get_account_payables] is made with that ticker, so that
    it is what is validated and fetched.  Hence two entries that differ
    only in ASCII letter case and in leading or trailing ASCII whitespace
    give the same run: the same request URL and the same output. *)
Theorem ticker_is_normalised_before_use (API_KEY t1 yl : string)
    (net : network) :
  ascii_only t1 = true ->
  (exists l r,
      t1 = l ++ strip t1 ++ r /\ all_space l = true /\ all_space r = true)
  /\ trimmed (strip t1) = true
  /\ same_text_ci (strip t1) (upper (strip t1))
  /\ no_lower (upper (strip t1)) = true
  /\ (forall req,
        In req (requests_of (fst (main API_KEY t1 yl net))) ->
        req_url req = api_url ++ upper (strip t1))
  /\ (forall year,
        API_KEY <> "INSERT YOUR API KEY" ->
        upper (strip t1) <> "" ->
        ascii_only yl = true ->
        (String.length yl <=? 4300)%nat = true ->
        py_int (strip yl) = Some year ->
        exists rest,
          fst (main API_KEY t1 yl net)
          = (main_prefix
             ++ fst (get_account_payables (VStr (upper (strip t1)))
                       (VInt year) (VStr API_KEY) net)
             ++ rest)%list)
  /\ (forall t2,
        ticker_variant t1 t2 ->
        main API_KEY t1 yl net = main API_KEY t2 yl net
        /\ map req_url (requests_of (fst (main API_KEY t1 yl net)))
           = map req_url (requests_of (fst (main API_KEY t2 yl net)))
        /\ stdout (fst (main API_KEY t1 yl net))
           = stdout (fst (main API_KEY t2 yl net))).
Proof.
  intros _.
  split; [apply strip_decompose | ].
  split; [apply strip_trimmed | ].
  split; [apply same_text_upper_self | ].
  split; [apply upper_no_lower | ].
  split; [ | split].
  - intros req Hin.
    destruct (main_requests_cases API_KEY t1 yl net) as [H | H];
      rewrite H in Hin; simpl in Hin.
    + contradiction.
    + destruct Hin as [<- | []]. reflexivity.
  - intros year Hk Ht _ _ Hy.
    apply String.eqb_neq in Hk. unfold main.
    rewrite Hk, (is_empty_false _ Ht), Hy.
    match goal with
    | |- context [try_except (bind ?m ?k) ?h] =>
        destruct (try_except_trace _ (bind m k) h) as [rest1 H1];
        destruct (bind_trace _ _ m k) as [rest2 H2];
        rewrite H2 in H1;
        destruct (try_except (bind m k) h) as [tr res]
    end.
    cbn [fst] in H1. subst tr. exists (rest2 ++ rest1)%list.
    cbn -[get_account_payables append nl repeat_str upper strip].
    now rewrite <- app_assoc.
  - intros t2 H. apply ticker_variant_normalised in H.
    assert (Hm : main API_KEY t1 yl net = main API_KEY t2 yl net)
      by (unfold main; now rewrite H).
    now rewrite Hm.
Qed.

End Script.

(* ================================================================== *)
(** ** Runs on concrete inputs *)
(* ================================================================== *)

Example strip_upper_ex :
  strip "  reliance.ns  " = "reliance.ns"
  /\ upper "reliance.ns" = "RELIANCE.NS".
Proof. split; reflexivity. Qed.

Example py_int_ex :
  py_int " +2_025 " = Some 2025 /\ py_int "007" = Some 7 /\
  py_int "-12" = Some (-12) /\ py_int "abc" = None /\ py_int "" = None /\
  py_int "1__2" = None /\ py_int "12_" = None /\ py_int "20 25" = None.
Proof. repeat split; reflexivity. Qed.

Example format_int_ex :
  format_int_space_comma 700 = " 700" /\
  format_int_space_comma 1234567 = " 1,234,567" /\
  format_int_space_comma (-1234567) = "-1,234,567" /\
  format_int_space_comma 0 = " 0".
Proof. repeat split; reflexivity. Qed.

(** The output of a whole run on the example payload. *)
Example main_report_ex :
  stdout (fst (main plain_repr plain_float_format "k3y" " x " "2025"
                 (always (Responded (ok_response example_payload)))))
  = stdout
      (main_prefix ++ fetch_prefix "X"
       ++ report_head "None" "X" "2025" "None" "None" "USD"
       ++ [Print "Account Payables:      700 USD";
           Print (repeat_str "=" 70 ++ nl);
           Print "✓ Successfully retrieved Account Payables:   700"])%list.
Proof. reflexivity. Qed.

(** With the key left at its placeholder [main] stops at once. *)
Example main_placeholder_ex :
  main plain_repr plain_float_format "INSERT YOUR API KEY" "x" "2025"
    (always (TimedOut "timeout"))
  = ([Print "Error: Please set your API key in the script first.";
      Print "Replace 'INSERT YOUR API KEY' with your actual API key."],
     Raise (SystemExit 1)).
Proof. reflexivity. Qed.

(** A float 2025.0 in [calendarYear] compares equal to 2025, so the record
    that holds it is returned although a later record has the int 2025. *)
Lemma float_year_matches_first :
  find_record (map VDict [record_float_year; record_int_year]) 2025
  = Ok (Some (project record_float_year))
  /\ select_first_int [record_float_year; record_int_year] 2025
     = Some (project record_int_year)
  /\ find_record (map VDict [record_float_year; record_int_year]) 2025
     <> Ok (select_first_int [record_float_year; record_int_year] 2025).
Proof. repeat split. discriminate. Qed.

(** A response with status 300, which is not a 2xx status, and a good body
    gives a record, not [None]. *)
Lemma status_300_returns_record :
  check_arguments (VStr "X") (VInt 2025) (VStr "secret")
  = Ok ("X", 2025, "secret")
  /\ ~ (200 <= 300 <= 299)
  /\ get_account_payables plain_repr (VStr "X") (VInt 2025) (VStr "secret")
       status_300_network
     = (fetch_prefix "X", Ok (Some (project record_2025)))
  /\ snd (get_account_payables plain_repr (VStr "X") (VInt 2025)
            (VStr "secret") status_300_network)
     <> Ok None.
Proof. repeat split; try lia; discriminate. Qed.

Lemma failures_become_no_result_witness :
  check_arguments (VStr "X") (VInt 2025) (VStr "secret")
  = Ok ("X", 2025, "secret")
  /\ fetch_failure 2025 (always (TimedOut "timeout") (request_for "X"))
  /\ (exists tr o,
        get_account_payables plain_repr (VStr "X") (VInt 2025) (VStr "secret")
          (always (TimedOut "timeout")) = (tr, Ok o))
  /\ (exists msg,
        get_account_payables plain_repr (VStr "X") (VInt 2025) (VStr "secret")
          (always (TimedOut "timeout"))
        = ((fetch_prefix "X" ++ [Print msg])%list, Ok None))
  /\ exit_status
       (snd (main plain_repr plain_float_format "secret" " x " "2025"
               (always (TimedOut "timeout")))) = 0.
Proof.
  assert (Hc : check_arguments (VStr "X") (VInt 2025) (VStr "secret")
               = Ok ("X", 2025, "secret")) by reflexivity.
  assert (Hf : fetch_failure 2025 (always (TimedOut "timeout") (request_for "X")))
    by constructor.
  destruct (failures_become_no_result plain_repr plain_float_format
              (VStr "X") (VInt 2025) (VStr "secret")
              (always (TimedOut "timeout")) "X" 2025 "secret" Hc)
    as (H1 & H2 & H3).
  split; [exact Hc | split; [exact Hf | split; [exact H1 | split]]].
  - exact (H2 Hf).
  - apply (H3 " x " "2025" Hf); [discriminate | reflexivity | reflexivity].
Defined.

Lemma returned_year_witness :
  get_account_payables plain_repr (VStr "X") (VInt 2025) (VStr "secret")
    (always (Responded (ok_response example_payload)))
  = (fetch_prefix "X", Ok (Some (project record_2025)))
  /\ exists z,
       VInt 2025 = VInt z
       /\ eq_int (Result.year (project record_2025)) z = true.
Proof.
  split; [reflexivity | ].
  apply (returned_year_is_requested plain_repr
           (VStr "X") (VInt 2025) (VStr "secret")
           (always (Responded (ok_response example_payload)))
           (fetch_prefix "X") (project record_2025)).
  reflexivity.
Defined.

Lemma aapl_variant : ticker_variant " aapl " "AAPL".
Proof.
  apply (variant " " "aapl" " " "" "AAPL" "");
    try reflexivity.
  repeat constructor; right; left; split; reflexivity.
Defined.

Lemma one_request_per_call_witness :
  check_arguments (VStr "X") (VInt 2025) (VStr "secret")
  = Ok ("X", 2025, "secret")
  /\ requests_of
       (fst (get_account_payables plain_repr (VStr "X") (VInt 2025)
               (VStr "secret") status_300_network))
     = [request_for "X"].
Proof.
  split; [reflexivity | ].
  apply (one_request_per_call plain_repr (VStr "X") (VInt 2025)
           (VStr "secret") status_300_network "X" 2025 "secret" eq_refl).
Defined.

Lemma result_comes_from_response_witness :
  get_account_payables plain_repr (VStr "X") (VInt 2025) (VStr "secret")
    only_X_network
  = (fetch_prefix "X", Ok (Some (project record_2025)))
  /\ exists ticker year api_key r d items record,
       check_arguments (VStr "X") (VInt 2025) (VStr "secret")
       = Ok (ticker, year, api_key)
       /\ only_X_network (request_for ticker) = Responded r
       /\ is_http_error r = false
       /\ json r = Some (VDict d)
       /\ eq_str (dict_get d "status") "success" = true
       /\ dict_get d "data" = VList items
       /\ In (VDict record) items
       /\ year_matches year record = true
       /\ project record_2025 = project record.
Proof.
  split; [reflexivity | ].
  apply (result_comes_from_response plain_repr (VStr "X") (VInt 2025)
           (VStr "secret") only_X_network (fetch_prefix "X")
           (project record_2025) eq_refl).
Defined.

Lemma failure_diagnostics_witness :
  check_arguments (VStr "X") (VInt 2025) (VStr "secret")
  = Ok ("X", 2025, "secret")
  /\ always (TimedOut "timeout") (request_for "X") = TimedOut "timeout"
  /\ get_account_payables plain_repr (VStr "X") (VInt 2025) (VStr "secret")
       (always (TimedOut "timeout"))
     = ((fetch_prefix "X"
         ++ [Print "Request timed out while fetching data for X"])%list,
        Ok None).
Proof.
  split; [reflexivity | split; [reflexivity | ]].
  apply (failure_diagnostics plain_repr (VStr "X") (VInt 2025)
           (VStr "secret") (always (TimedOut "timeout")) "X" 2025 "secret"
           eq_refl) with (m := "timeout").
  reflexivity.
Defined.

Lemma api_key_is_irrelevant_witness :
  "first" <> "" /\ "second" <> ""
  /\ get_account_payables plain_repr (VStr "X") (VInt 2025) (VStr "first")
       only_X_network
     = get_account_payables plain_repr (VStr "X") (VInt 2025) (VStr "second")
         only_X_network.
Proof.
  split; [discriminate | split; [discriminate | ]].
  apply (api_key_is_irrelevant plain_repr (VStr "X") (VInt 2025)
           "first" "second" only_X_network); discriminate.
Defined.



Lemma blank_ticker_is_refused_witness :
  "k3y" <> "INSERT YOUR API KEY"
  /\ ascii_only "   " = true
  /\ all_space "   " = true
  /\ main plain_repr plain_float_format "k3y" "   " "2025" only_X_network
     = (blank_ticker_trace, Raise (SystemExit 1)).
Proof.
  split; [discriminate | split; [reflexivity | split; [reflexivity | ]]].
  apply (blank_ticker_is_refused plain_repr plain_float_format
           "k3y" "   " "2025" only_X_network);
    [discriminate | reflexivity | reflexivity].
Defined.

Lemma year_entry_padding_witness :
  all_space "  " = true /\ all_space " " = true
  /\ main plain_repr plain_float_format "k3y" "x" "  2025 " only_X_network
     = main plain_repr plain_float_format "k3y" "x" "2025" only_X_network.
Proof.
  split; [reflexivity | split; [reflexivity | ]].
  apply (year_entry_padding plain_repr plain_float_format
           "k3y" "x" "2025" "  " " " only_X_network); reflexivity.
Defined.


(** The same body with status 200 and with status 404 is not displayed
    the same way: the first run returns the record, the second prints the
    HTTP error. *)
Lemma same_body_other_status :
  json (ok_response example_payload)
  = json (mkResponse 404 "Not Found" (Some example_payload))
  /\ stdout
       (fst (result <- get_account_payables plain_repr (VStr "X") (VInt 2025)
                         (VStr "secret")
                         (always (Responded (ok_response example_payload))) ;;
             display_account_payables plain_repr plain_float_format result))
     <> stdout
          (fst (result <- get_account_payables plain_repr (VStr "X")
                            (VInt 2025) (VStr "secret") status_404_network ;;
                display_account_payables plain_repr plain_float_format
                  result)).
Proof.
  split; [reflexivity | ]. apply String.eqb_neq. reflexivity.
Qed.

Lemma same_response_same_output_witness :
  check_arguments (VStr "X") (VInt 2025) (VStr "secret")
  = Ok ("X", 2025, "secret")
  /\ same_outcome (ok_response example_payload)
       (mkResponse 201 "Created" (Some example_payload))
  /\ get_account_payables plain_repr (VStr "X") (VInt 2025) (VStr "secret")
       (always (Responded (ok_response example_payload)))
     = get_account_payables plain_repr (VStr "X") (VInt 2025) (VStr "secret")
         status_201_network.
Proof.
  assert (Hs : same_outcome (ok_response example_payload)
                 (mkResponse 201 "Created" (Some example_payload))).
  { split; [reflexivity | left; split; reflexivity]. }
  split; [reflexivity | split; [exact Hs | ]].
  apply (same_response_same_output plain_repr plain_float_format
           (VStr "X") (VInt 2025) (VStr "secret")
           (always (Responded (ok_response example_payload)))
           status_201_network "X" 2025 "secret"
           (ok_response example_payload)
           (mkResponse 201 "Created" (Some example_payload))
           eq_refl eq_refl eq_refl Hs).
Defined.

(** The entries "k" and KELVIN SIGN differ only in letter case, and yet
    their requests go to different URLs: the one of "K", and the one of
    the sign itself. *)
Lemma kelvin_sign_gets_another_url :
  map req_url
    (requests_of
       (fst (main plain_repr plain_float_format "k3y" "k" "2025"
               only_X_network)))
  = [api_url ++ "K"]
  /\ map req_url
       (requests_of
          (fst (main plain_repr plain_float_format "k3y" kelvin_sign "2025"
                  only_X_network)))
     = [api_url ++ kelvin_sign]
  /\ api_url ++ "K" <> api_url ++ kelvin_sign.
Proof.
  split; [reflexivity | split; [reflexivity | ]].
  apply String.eqb_neq. reflexivity.
Qed.

Lemma ticker_is_normalised_before_use_witness :
  ascii_only " aapl " = true
  /\ upper (strip " aapl ") = "AAPL"
  /\ (forall req,
        In req
          (requests_of
             (fst (main plain_repr plain_float_format "k3y" " aapl " "2025"
                     only_X_network))) ->
        req_url req = api_url ++ "AAPL")
  /\ main plain_repr plain_float_format "k3y" " aapl " "2025" only_X_network
     = main plain_repr plain_float_format "k3y" "AAPL" "2025" only_X_network.
Proof.
  destruct (ticker_is_normalised_before_use plain_repr plain_float_format
              "k3y" " aapl " "2025" only_X_network eq_refl)
    as (_ & _ & _ & _ & Hurl & _ & Hvar).
  split; [reflexivity | split; [reflexivity | split; [exact Hurl | ]]].
  exact (proj1 (Hvar "AAPL" aapl_variant)).
Defined.

Lemma main_exit_status_iff_witness :
  ascii_only " x " = true /\ ascii_only "2025" = true
  /\ (String.length "2025" <=? 4300)%nat = true
  /\ (exit_status
        (snd (main plain_repr plain_float_format "k3y" " x " "2025"
                only_X_network)) = 0
      <-> exists ticker year,
            preflight "k3y" " x " "2025" = Some (ticker, year)
            /\ forall tr r,
                 get_account_payables plain_repr (VStr ticker) (VInt year)
                   (VStr "k3y") only_X_network = (tr, Ok (Some r)) ->
                 is_number (Result.accountPayables r) = true).
Proof.
  split; [reflexivity | split; [reflexivity | split; [reflexivity | ]]].
  apply (main_exit_status_iff plain_repr plain_float_format
           "k3y" " x " "2025" only_X_network eq_refl eq_refl eq_refl).
Defined.

Lemma main_requests_witness :
  ascii_only " x " = true /\ ascii_only "2025" = true
  /\ (String.length "2025" <=? 4300)%nat = true
  /\ requests_of
       (fst (main plain_repr plain_float_format "k3y" " x " "2025"
               only_X_network))
     = [request_for "X"].
Proof.
  split; [reflexivity | split; [reflexivity | split; [reflexivity | ]]].
  apply (main_requests plain_repr plain_float_format
           "k3y" " x " "2025" only_X_network eq_refl eq_refl eq_refl).
Defined.
